(** * changebyus/app.py: application bootstrap and wiring

    A shallow embedding of the configurators of [changebyus/app.py]
    (logging, identity loading, error handlers, [create_app]) and the
    properties of them that the specification states.

    Python values are embedded as the inductive [pyval]; a function that
    mutates an object and may raise is a computation in a state-and-exception
    monad [M S A] over the mutated object. *)

From Stdlib Require Import ZArith List String Ascii Bool Lia.
Import ListNotations.
Open Scope string_scope.
Open Scope Z_scope.
Set Warnings "-register-all".

(** ** Python values *)

(** The values a YAML document loads to (None, booleans, integers, text,
    sequences, mappings) and [bson.ObjectId], written by its hexadecimal
    text.  [str] and [unicode] are both [PyStr].  A mapping is an association
    list searched from the left. *)
Inductive pyval : Type :=
| PyNone
| PyBool (b : bool)
| PyInt (z : Z)
| PyStr (s : string)
| PyOid (hex : string)
| PyList (l : list pyval)
| PyDict (d : list (string * pyval)).

(** The exceptions the embedded code can raise. *)
Inductive exn : Type :=
| KeyError (key : string)
| TypeError
| ValueError
| AttributeError (attr : string)
| NameError (name : string)
| UnboundLocalError (name : string)
| IOError
| RuntimeError (msg : string)
| Exception_ (msg : string).

(** ** Pure results: a value or a raised exception *)
Inductive result (A : Type) : Type :=
| Ok (a : A)
| Err (e : exn).
Arguments Ok {A} a.
Arguments Err {A} e.

Definition rbind {A B} (r : result A) (k : A -> result B) : result B :=
  match r with
  | Ok a => k a
  | Err e => Err e
  end.

(** ** State and exceptions

    [M S A] is a computation over a mutable object of type [S] that returns
    an [A] or raises; the object keeps the mutations made before a raise. *)
Inductive outcome (A : Type) : Type :=
| Ret (a : A)
| Raise (e : exn).
Arguments Ret {A} a.
Arguments Raise {A} e.

Definition M (S A : Type) : Type := S -> outcome A * S.

Definition ret {S A} (a : A) : M S A := fun s => (Ret a, s).
Definition raise {S A} (e : exn) : M S A := fun s => (Raise e, s).
Definition bind {S A B} (m : M S A) (k : A -> M S B) : M S B :=
  fun s => match m s with
           | (Ret a, s') => k a s'
           | (Raise e, s') => (Raise e, s')
           end.
Definition get {S} : M S S := fun s => (Ret s, s).
Definition modify {S} (f : S -> S) : M S unit := fun s => (Ret tt, f s).
Definition lift {S A} (r : result A) : M S A :=
  match r with
  | Ok a => ret a
  | Err e => raise e
  end.

Declare Scope monad_scope.
Delimit Scope monad_scope with monad.
Notation "x <- m ;; k" := (bind m (fun x => k))
  (at level 61, m at next level, right associativity) : monad_scope.
Notation "m ;; k" := (bind m (fun _ => k))
  (at level 61, right associativity) : monad_scope.
Open Scope monad_scope.

(** ** Python operations on values *)

(** Truth value of an object in a condition. *)
Definition truthy (v : pyval) : bool :=
  match v with
  | PyNone => false
  | PyBool b => b
  | PyInt z => negb (z =? 0)
  | PyStr s => negb (s =? "")%string
  | PyOid _ => true
  | PyList l => match l with [] => false | _ => true end
  | PyDict d => match d with [] => false | _ => true end
  end.

Fixpoint assoc (k : string) (d : list (string * pyval)) : option pyval :=
  match d with
  | [] => None
  | (k', v) :: d' => if (k =? k')%string then Some v else assoc k d'
  end.

(** [v[k]] for a text key: a mapping without the key raises [KeyError], and
    an object that is not a mapping cannot be subscripted by text. *)
Definition subscript (v : pyval) (k : string) : result pyval :=
  match v with
  | PyDict d => match assoc k d with
                | Some x => Ok x
                | None => Err (KeyError k)
                end
  | _ => Err TypeError
  end.

(** [d.get(k)]: [None] for a missing key; only mappings have [get]. *)
Definition dict_get (v : pyval) (k : string) : result pyval :=
  match v with
  | PyDict d => match assoc k d with
                | Some x => Ok x
                | None => Ok PyNone
                end
  | _ => Err (AttributeError "get")
  end.

Fixpoint assoc_set (k : string) (x : pyval) (d : list (string * pyval))
  : list (string * pyval) :=
  match d with
  | [] => [(k, x)]
  | (k', v) :: d' =>
      if (k =? k')%string then (k, x) :: d' else (k', v) :: assoc_set k x d'
  end.

(** [v[k] = x] for a text key. *)
Definition setitem (v : pyval) (k : string) (x : pyval) : result pyval :=
  match v with
  | PyDict d => Ok (PyDict (assoc_set k x d))
  | _ => Err TypeError
  end.

(** *** [int(x)] *)

Definition is_space (c : ascii) : bool :=
  let n := nat_of_ascii c in
  ((n =? 32) || ((9 <=? n) && (n <=? 13)))%nat.

Definition digit_of (c : ascii) : option Z :=
  let n := Z.of_nat (nat_of_ascii c) in
  if (48 <=? n) && (n <=? 57) then Some (n - 48) else None.

Fixpoint lstrip (s : string) : string :=
  match s with
  | String c s' => if is_space c then lstrip s' else s
  | EmptyString => EmptyString
  end.

(** Reads decimal digits into [acc]; trailing white space is allowed, any
    other character is an error. *)
Fixpoint digits (s : string) (acc : Z) : option Z :=
  match s with
  | EmptyString => Some acc
  | String c s' =>
      match digit_of c with
      | Some d => digits s' (10 * acc + d)
      | None => if is_space c
                then match lstrip s' with
                     | EmptyString => Some acc
                     | _ => None
                     end
                else None
      end
  end.

(** At least one digit is required. *)
Definition unsigned_literal (s : string) : option Z :=
  match s with
  | String c _ => match digit_of c with
                  | Some _ => digits s 0
                  | None => None
                  end
  | EmptyString => None
  end.

Definition int_of_string (s : string) : option Z :=
  match lstrip s with
  | String "-" s' => option_map Z.opp (unsigned_literal s')
  | String "+" s' => unsigned_literal s'
  | s' => unsigned_literal s'
  end.

(** [int(x)]: integers and booleans convert, text is parsed as a decimal
    literal ([ValueError] otherwise), anything else is a [TypeError]. *)
Definition py_int (v : pyval) : result Z :=
  match v with
  | PyInt z => Ok z
  | PyBool b => Ok (if b then 1 else 0)
  | PyStr s => match int_of_string s with
               | Some z => Ok z
               | None => Err ValueError
               end
  | _ => Err TypeError
  end.

(** ** The logging configurator *)

(** A [RotatingFileHandler] after construction, [setLevel] and
    [setFormatter]. *)
Record Handler : Type := mkHandler {
  baseFilename : string;
  maxBytes : Z;
  backupCount : pyval;
  level : pyval;
  formatter : string
}.

(** The level names of [logging._levelNames]. *)
Definition levelNames (s : string) : option Z :=
  if (s =? "CRITICAL")%string then Some 50
  else if (s =? "ERROR")%string then Some 40
  else if (s =? "WARN")%string then Some 30
  else if (s =? "WARNING")%string then Some 30
  else if (s =? "INFO")%string then Some 20
  else if (s =? "DEBUG")%string then Some 10
  else if (s =? "NOTSET")%string then Some 0
  else None.

(** [logging._checkLevel(level)]. *)
Definition checkLevel (lv : pyval) : result pyval :=
  match lv with
  | PyInt _ | PyBool _ => Ok lv
  | PyStr s => match levelNames s with
               | Some n => Ok (PyInt n)
               | None => Err ValueError
               end
  | _ => Err TypeError
  end.

Definition logging_DEBUG : pyval := PyInt 10.
Definition logging_INFO : pyval := PyInt 20.

Definition megabyte : Z := 1048576.

Definition log_format : string :=
  "%(asctime)s %(levelname)s: %(message)s [%(pathname)s:%(funcName)s:%(lineno)d]".

Section Logging.

(** The attributes of the standard [logging] module, by name. *)
Variable logging_attr : string -> option pyval.

(** What the standard library makes of the file name given to a file
    handler: the absolute path of the file it opened for appending, or the
    exception it raised. *)
Variable open_file : pyval -> result string.

(** [logging.__getattribute__(name)]. *)
Definition logging_getattribute (name : pyval) : result pyval :=
  match name with
  | PyStr s => match logging_attr s with
               | Some v => Ok v
               | None => Err (AttributeError s)
               end
  | _ => Err TypeError
  end.

(** [RotatingFileHandler(filename, maxBytes=..., backupCount=...)]; the
    level is [NOTSET] and there is no formatter until they are set. *)
Definition RotatingFileHandler (filename : pyval) (max_bytes : Z)
    (backup_count : pyval) : result Handler :=
  rbind (open_file filename) (fun path =>
  Ok (mkHandler path max_bytes backup_count (PyInt 0) "")).

(** [handler.setLevel(level)] stores the level that [logging._checkLevel]
    makes of its argument: an integer as it is, the number of a level name,
    [ValueError] for any other text and [TypeError] for anything else. *)
Definition setLevel (lv : pyval) (h : Handler) : result Handler :=
  rbind (checkLevel lv) (fun v =>
  Ok (mkHandler (baseFilename h) (maxBytes h) (backupCount h) v
                (formatter h))).

Definition setFormatter (f : string) (h : Handler) : Handler :=
  mkHandler (baseFilename h) (maxBytes h) (backupCount h) (level h) f.

(** The local variables of [configure_logging] that the [LOGGING] block
    may overwrite. *)
Record LogLocals : Type := mkLogLocals {
  logsize : Z;
  rotations : pyval;
  name : pyval;
  lvl : pyval
}.

(** The body of [if app.settings['LOGGING']:] (lines 138-148). *)
Definition logging_block (settings : pyval) (l : LogLocals)
  : result LogLocals :=
  rbind (rbind (subscript settings "LOGGING")
               (fun lg => subscript lg "SIZE_MB")) (fun size_mb =>
  rbind (if truthy size_mb
         then rbind (rbind (subscript settings "LOGGING")
                           (fun lg => subscript lg "SIZE_MB"))
                    (fun v => rbind (py_int v)
                                    (fun n => Ok (n * megabyte)))
         else Ok (logsize l)) (fun logsize1 =>
  rbind (rbind (subscript settings "LOGGING")
               (fun lg => subscript lg "LEVEL")) (fun lev =>
  rbind (if truthy lev
         then rbind (rbind (subscript settings "LOGGING")
                           (fun lg => subscript lg "LEVEL"))
                    logging_getattribute
         else Ok (lvl l)) (fun level1 =>
  rbind (rbind (subscript settings "LOGGING")
               (fun lg => subscript lg "NAME")) (fun nm =>
  rbind (if truthy nm
         then rbind (subscript settings "LOGGING")
                    (fun lg => subscript lg "NAME")
         else Ok (name l)) (fun name1 =>
  rbind (rbind (subscript settings "LOGGING")
               (fun lg => subscript lg "ROTATIONS")) (fun rot =>
  rbind (if truthy rot
         then rbind (subscript settings "LOGGING")
                    (fun lg => subscript lg "ROTATIONS")
         else Ok (rotations l)) (fun rotations1 =>
  Ok (mkLogLocals logsize1 rotations1 name1 level1))))))))).

(** [configure_logging], as a function of [app.settings]: the handler it
    adds to [app.logger], or the exception it raises.  The locals
    [logsize] and [name] are computed as in the source; the constructor
    call of lines 150-152 reads [app.settings['LOGGING']['NAME']] and the
    constant [25 * megabyte]. *)
Definition logging_handler (settings : pyval) : result Handler :=
  let l0 := mkLogLocals (25 * megabyte) (PyInt 10) (PyStr "flask.log")
                        PyNone in
  rbind (subscript settings "DEBUG") (fun dbg =>
  let l1 := mkLogLocals (logsize l0) (rotations l0) (name l0)
              (if truthy dbg then logging_DEBUG else logging_INFO) in
  rbind (subscript settings "LOGGING") (fun lg =>
  rbind (if truthy lg then logging_block settings l1 else Ok l1) (fun l =>
  rbind (rbind (subscript settings "LOGGING")
               (fun lg' => subscript lg' "NAME")) (fun filename =>
  rbind (RotatingFileHandler filename (25 * megabyte) (rotations l))
        (fun handler =>
  rbind (setLevel (lvl l) handler) (fun handler =>
  Ok (setFormatter log_format handler))))))).

End Logging.

(** ** Users, roles, posts and needs *)

(** The [User], [Role] and post documents are read through attributes only.
    An attribute that [hasattr] does not find is [None] here.  Object ids are
    written by their hexadecimal text. *)
Record Role : Type := mkRole { role_name : string }.

Record Post : Type := mkPost { post_id : string }.

Record User : Type := mkUser {
  user_id : option string;
  user_email : string;
  user_roles : option (list Role);
  user_posts : option (list Post)
}.

(** The needs of [flask.ext.principal] the module imports (line 21), and the
    value a call of another module-level name would build. *)
Inductive Need : Type :=
| UserNeed (id : string)
| RoleNeed (role : string)
| CalledNeed (callee : string) (arg : string).

Definition need_eqb (a b : Need) : bool :=
  match a, b with
  | UserNeed x, UserNeed y => (x =? y)%string
  | RoleNeed x, RoleNeed y => (x =? y)%string
  | CalledNeed f x, CalledNeed g y => ((f =? g) && (x =? y))%string
  | _, _ => false
  end.

(** [provides.add(need)] on a set kept as a list without repetition. *)
Definition set_add (n : Need) (s : list Need) : list Need :=
  if existsb (need_eqb n) s then s else s ++ [n].

(** The names bound at module level when a request runs: the imports of
    lines 8-40 and the definitions of the module. *)
Definition module_globals : list string :=
  [ "os"; "yaml"; "inspect"; "bson"; "RotatingFileHandler"; "logging";
    "Mail"; "Flask"; "request"; "render_template"; "current_app"; "g";
    "jsonify"; "Security"; "MongoEngineUserDatastore"; "login_required";
    "identity_loaded"; "Identity"; "Permission"; "RoleNeed"; "UserNeed";
    "LoginManager"; "current_user"; "UploadSet"; "configure_uploads";
    "IMAGES"; "OAuth"; "post_view"; "post_api"; "project_view";
    "project_api"; "facebook_view"; "twitter_view"; "stream_view";
    "stream_api"; "user_view"; "user_api"; "frontend_view"; "assemble_key";
    "db"; "login_manager"; "get_shared_config"; "stripe_view"; "__all__";
    "DEFAULT_BLUEPRINTS"; "create_app"; "configure_database";
    "configure_logging"; "configure_app"; "configure_hook";
    "configure_blueprints"; "configure_mail"; "configure_security";
    "configure_media_uploads"; "configure_encryption";
    "configure_error_handlers" ].

(** The built-in names the module uses. *)
Definition builtins : list string :=
  [ "None"; "True"; "False"; "int"; "str"; "unicode"; "file"; "isinstance";
    "hasattr"; "Exception" ].

(** Loading a name that is neither a local nor bound at module level nor a
    built-in raises [NameError]. *)
Definition load_global (n : string) : result unit :=
  if existsb (String.eqb n) (module_globals ++ builtins)
  then Ok tt
  else Err (NameError n).

(** ** The request: [g], the identity and the log *)

(** [g.user]: [None], the anonymous user of the login manager, or a user
    document. *)
Inductive guser : Type :=
| GNone
| GAnonymous
| GUser (u : User).

(** A message given to the logger: text, or a template with its one
    argument of [%] formatting. *)
Inductive message : Type :=
| Plain (text : string)
| Interp (template : string) (arg : pyval).

Inductive logrec : Type :=
| LogError (m : message)
| LogException (error : string).

Record Request : Type := mkRequest {
  g_user : guser;
  identity_name : pyval;
  identity_provides : list Need;
  identity_user : option User;
  logged : list logrec
}.

Definition set_g_user (u : guser) (r : Request) : Request :=
  mkRequest u (identity_name r) (identity_provides r) (identity_user r)
            (logged r).

Definition provide (n : Need) (r : Request) : Request :=
  mkRequest (g_user r) (identity_name r) (set_add n (identity_provides r))
            (identity_user r) (logged r).

Definition set_identity_user (u : option User) (r : Request) : Request :=
  mkRequest (g_user r) (identity_name r) (identity_provides r) u (logged r).

Definition emit (l : logrec) (r : Request) : Request :=
  mkRequest (g_user r) (identity_name r) (identity_provides r)
            (identity_user r) (logged r ++ [l]).

Definition logger_error (m : message) : M Request unit :=
  modify (emit (LogError m)).

Definition logger_exception (error : string) : M Request unit :=
  modify (emit (LogException error)).

(** ** The identity-loaded handler *)

(** [User.objects(id=...)] and [User.objects(email=...)] over the stored
    users. *)
Definition objects_by_id (users : list User) (oid : string) : list User :=
  filter (fun u => match user_id u with
                   | Some i => (i =? oid)%string
                   | None => false
                   end) users.

Definition objects_by_email (users : list User) (email : string)
  : list User :=
  filter (fun u => (user_email u =? email)%string) users.

Definition count (q : list User) : Z := Z.of_nat (List.length q).

Definition first (q : list User) : option User := hd_error q.

(** [for role in user.roles: identity.provides.add(RoleNeed(role.name))] *)
Fixpoint add_role_needs (roles : list Role) : M Request unit :=
  match roles with
  | [] => ret tt
  | role :: rest =>
      modify (provide (RoleNeed (role_name role))) ;;
      add_role_needs rest
  end.

(** [for post in user.posts:
       identity.provides.add(EditBlogPostNeed(unicode(post.id)))]:
    the callee is loaded by name at each iteration. *)
Fixpoint add_post_needs (posts : list Post) : M Request unit :=
  match posts with
  | [] => ret tt
  | post :: rest =>
      lift (load_global "EditBlogPostNeed") ;;
      modify (provide (CalledNeed "EditBlogPostNeed" (post_id post))) ;;
      add_post_needs rest
  end.

Definition login_error : string :=
  "[on_identity_loaded] Error getting login information. Please contact an administrator".

(** The two [isinstance] branches of lines 220-223: the query set assigned
    to the local [user], or [None] when neither branch runs and [user] stays
    unbound. *)
Definition lookup_user (users : list User) (nm : pyval)
  : option (list User) :=
  match nm with
  | PyOid oid => Some (objects_by_id users oid)
  | PyStr email => Some (objects_by_email users email)
  | _ => None
  end.

(** [on_identity_loaded(sender, identity)] over the stored [users]. *)
Definition on_identity_loaded (users : list User) : M Request unit :=
  modify (set_g_user GNone) ;;
  rq <- get ;;
  match identity_name rq with
  | PyNone => ret tt
  | nm =>
      match lookup_user users nm with
      | None => raise (UnboundLocalError "user")
      | Some q =>
          if count q >? 1 then
            logger_error
              (Interp "Got more than one match for user login %s" nm) ;;
            raise (Exception_ login_error)
          else if count q =? 0 then
            modify (set_g_user GNone)
          else
            let user := first q in
            match user with
            | Some {| user_id := Some i |} => modify (provide (UserNeed i))
            | _ => ret tt
            end ;;
            match user with
            | Some {| user_roles := Some roles |} => add_role_needs roles
            | _ => ret tt
            end ;;
            match user with
            | Some {| user_posts := Some posts |} => add_post_needs posts
            | _ => ret tt
            end ;;
            modify (set_identity_user user) ;;
            modify (set_g_user match user with
                               | Some u => GUser u
                               | None => GNone
                               end)
      end
  end.

(** ** The error handlers *)

(** [render_template(template, error=text)]. *)
Inductive Response : Type :=
| Rendered (template : string) (error : string).

Definition render_template (template error : string) : Response :=
  Rendered template error.

(** ['' if g.user.is_anonymous() else ' user[' + str(g.user.id) + '] '] *)
Definition userStr : M Request string :=
  rq <- get ;;
  match g_user rq with
  | GNone => raise (AttributeError "is_anonymous")
  | GAnonymous => ret ""
  | GUser u =>
      match user_id u with
      | Some i => ret (" user[" ++ i ++ "] ")
      | None => raise (AttributeError "id")
      end
  end.

(** The handlers take the text [str(error)] of the error they handle. *)
Definition bad_request (error : string) : M Request Response :=
  u <- userStr ;;
  logger_error (Plain ("400 error occured " ++ u ++ " : " ++ error)) ;;
  logger_exception error ;;
  ret (render_template "error.html" "Sorry, this page is missing.").

Definition forbidden_request (error : string) : M Request Response :=
  u <- userStr ;;
  logger_error (Plain ("403 error occured " ++ u ++ " : " ++ error)) ;;
  logger_exception error ;;
  ret (render_template "error.html" "Sorry, forbidden request.").

Definition not_found (error : string) : M Request Response :=
  logger_error (Plain error) ;;
  ret (render_template "error.html" "Sorry, this page doesn't exist.").

Definition no_permission (error : string) : M Request Response :=
  u <- userStr ;;
  logger_error (Plain ("405 error occured " ++ u ++ " : " ++ error)) ;;
  logger_exception error ;;
  ret (render_template "error.html"
         "Sorry, you're not authorized to see this page.").

Definition internal_server_error (error : string) : M Request Response :=
  u <- userStr ;;
  logger_error (Plain ("500 error occured " ++ u ++ " : " ++ error)) ;;
  logger_exception error ;;
  ret (render_template "error.html" "Sorry, there was a server error.").

Definition internal_exception_handler (error : string)
  : M Request Response :=
  u <- userStr ;;
  logger_error (Plain ("Exception occured " ++ u ++ " : " ++ error)) ;;
  logger_exception error ;;
  ret (render_template "error.html" "Sorry, there was a server error.").

(** The [before_request] function of [configure_security] (lines 257-265):
    [g.user = current_user], the user of the login manager. *)
Definition security_before_request (current_user : guser)
  : M Request unit :=
  modify (set_g_user current_user).

(** What [app.errorhandler] is given: a status code or the class
    [Exception]. *)
Inductive ErrKey : Type :=
| Status (code : Z)
| ExceptionClass.

Definition errkey_eqb (a b : ErrKey) : bool :=
  match a, b with
  | Status x, Status y => x =? y
  | ExceptionClass, ExceptionClass => true
  | _, _ => false
  end.

(** ** The application object *)

Record App : Type := mkApp {
  import_name : string;
  settings : pyval;
  config : pyval;
  debug : bool;
  logger_handlers : list Handler;
  db : bool;
  before_request_funcs : list string;
  blueprints : list string;
  mail : bool;
  identity_loaded_receivers : list string;
  user_loader : option string;
  error_handlers : list (ErrKey * (string -> M Request Response));
  uploaded_photos : option string;
  calls : list string
}.

(** [Flask(app_name)].  [calls] is a ghost field: the configurators entered
    so far, oldest first. *)
Definition Flask (app_name : string) : App :=
  mkApp app_name PyNone PyNone false [] false [] [] false [] None [] None [].

Definition set_settings (v : pyval) (a : App) : App :=
  mkApp (import_name a) v (config a) (debug a) (logger_handlers a) (db a)
        (before_request_funcs a) (blueprints a) (mail a)
        (identity_loaded_receivers a) (user_loader a) (error_handlers a)
        (uploaded_photos a) (calls a).

Definition set_config (v : pyval) (a : App) : App :=
  mkApp (import_name a) (settings a) v (debug a) (logger_handlers a) (db a)
        (before_request_funcs a) (blueprints a) (mail a)
        (identity_loaded_receivers a) (user_loader a) (error_handlers a)
        (uploaded_photos a) (calls a).

Definition set_debug (b : bool) (a : App) : App :=
  mkApp (import_name a) (settings a) (config a) b (logger_handlers a) (db a)
        (before_request_funcs a) (blueprints a) (mail a)
        (identity_loaded_receivers a) (user_loader a) (error_handlers a)
        (uploaded_photos a) (calls a).

Definition addHandler (h : Handler) (a : App) : App :=
  mkApp (import_name a) (settings a) (config a) (debug a)
        (logger_handlers a ++ [h]) (db a)
        (before_request_funcs a) (blueprints a) (mail a)
        (identity_loaded_receivers a) (user_loader a) (error_handlers a)
        (uploaded_photos a) (calls a).

Definition set_db (a : App) : App :=
  mkApp (import_name a) (settings a) (config a) (debug a) (logger_handlers a)
        true (before_request_funcs a) (blueprints a) (mail a)
        (identity_loaded_receivers a) (user_loader a) (error_handlers a)
        (uploaded_photos a) (calls a).

Definition before_request (f : string) (a : App) : App :=
  mkApp (import_name a) (settings a) (config a) (debug a) (logger_handlers a)
        (db a) (before_request_funcs a ++ [f]) (blueprints a) (mail a)
        (identity_loaded_receivers a) (user_loader a) (error_handlers a)
        (uploaded_photos a) (calls a).

Definition register_blueprint (b : string) (a : App) : App :=
  mkApp (import_name a) (settings a) (config a) (debug a) (logger_handlers a)
        (db a) (before_request_funcs a) (blueprints a ++ [b]) (mail a)
        (identity_loaded_receivers a) (user_loader a) (error_handlers a)
        (uploaded_photos a) (calls a).

Definition set_mail (a : App) : App :=
  mkApp (import_name a) (settings a) (config a) (debug a) (logger_handlers a)
        (db a) (before_request_funcs a) (blueprints a) true
        (identity_loaded_receivers a) (user_loader a) (error_handlers a)
        (uploaded_photos a) (calls a).

Definition connect_identity_loaded (f : string) (a : App) : App :=
  mkApp (import_name a) (settings a) (config a) (debug a) (logger_handlers a)
        (db a) (before_request_funcs a) (blueprints a) (mail a)
        (identity_loaded_receivers a ++ [f]) (user_loader a)
        (error_handlers a) (uploaded_photos a) (calls a).

Definition set_user_loader (f : string) (a : App) : App :=
  mkApp (import_name a) (settings a) (config a) (debug a) (logger_handlers a)
        (db a) (before_request_funcs a) (blueprints a) (mail a)
        (identity_loaded_receivers a) (Some f) (error_handlers a)
        (uploaded_photos a) (calls a).

Definition errorhandler (k : ErrKey) (f : string -> M Request Response)
    (a : App) : App :=
  mkApp (import_name a) (settings a) (config a) (debug a) (logger_handlers a)
        (db a) (before_request_funcs a) (blueprints a) (mail a)
        (identity_loaded_receivers a) (user_loader a)
        (error_handlers a ++ [(k, f)]) (uploaded_photos a) (calls a).

Definition set_uploaded_photos (u : string) (a : App) : App :=
  mkApp (import_name a) (settings a) (config a) (debug a) (logger_handlers a)
        (db a) (before_request_funcs a) (blueprints a) (mail a)
        (identity_loaded_receivers a) (user_loader a) (error_handlers a)
        (Some u) (calls a).

Definition enter (f : string) : M App unit :=
  modify (fun a =>
  mkApp (import_name a) (settings a) (config a) (debug a) (logger_handlers a)
        (db a) (before_request_funcs a) (blueprints a) (mail a)
        (identity_loaded_receivers a) (user_loader a) (error_handlers a)
        (uploaded_photos a) (calls a ++ [f])).

(** The handler last registered for a key, if any. *)
Definition handler_for (k : ErrKey) (a : App)
  : option (string -> M Request Response) :=
  match filter (fun p => errkey_eqb k (fst p)) (rev (error_handlers a)) with
  | (_, f) :: _ => Some f
  | [] => None
  end.

Definition registered (k : ErrKey) (a : App) : bool :=
  existsb (fun p => errkey_eqb k (fst p)) (error_handlers a).

(** ** The configurators and [create_app] *)

Definition DEFAULT_BLUEPRINTS : list string :=
  [ "frontend_view"; "post_view"; "post_api"; "project_view"; "project_api";
    "facebook_view"; "twitter_view"; "stripe_view"; "stream_view";
    "stream_api"; "user_view"; "user_api" ].

(** [v is False]: only the boolean [False] itself. *)
Definition is_False (v : pyval) : bool :=
  match v with
  | PyBool false => true
  | _ => false
  end.

(** [v == True]: the boolean [True] and the integer 1. *)
Definition eq_True (v : pyval) : bool :=
  match v with
  | PyBool true => true
  | PyInt 1 => true
  | _ => false
  end.

(** [config.setdefault(k, v)]: an entry the mapping has is kept. *)
Definition setdefault (cfg : pyval) (k : string) (v : pyval)
  : result pyval :=
  match cfg with
  | PyDict d => match assoc k d with
                | Some _ => Ok cfg
                | None => Ok (PyDict (d ++ [(k, v)]))
                end
  | _ => Err (AttributeError "setdefault")
  end.

(** [for key, value in defaults: config.setdefault(prefix + key, value)] *)
Fixpoint setdefaults (prefix : string) (defaults : list (string * pyval))
    (cfg : pyval) : result pyval :=
  match defaults with
  | [] => Ok cfg
  | (k, v) :: rest =>
      rbind (setdefault cfg (prefix ++ k) v) (setdefaults prefix rest)
  end.

(** What the security extension adds to an application when
    [Security(app, user_datastore)] initialises it: its configuration
    defaults, set under the prefix [SECURITY_] where the configuration has
    no entry, its blueprints, its receivers of [identity_loaded] and its
    functions run before each request. *)
Record Extension : Type := mkExtension {
  ext_defaults : list (string * pyval);
  ext_blueprints : list string;
  ext_receivers : list string;
  ext_before_request : list string
}.

Section Wiring.

Variable logging_attr : string -> option pyval.
Variable open_file : pyval -> result string.

(** The security extension (line 209). *)
Variable security : Extension.

(** [configure_uploads(app, uploaded_photos)] of the uploads extension, as
    a function of [app.config]: the blueprints it registers to serve the
    files, or the exception it raises (such as [RuntimeError] when the
    configuration names no destination for the set). *)
Variable configure_uploads : pyval -> result (list string).

(** The document [yaml.load] reads from [config/config.yml]. *)
Variable config_yml : pyval.

(** [app.config] after [app.config.from_yaml] has read the same file into
    it ([from_yaml] is defined in [helpers], outside this module). *)
Variable from_yaml : pyval -> pyval.

(** [assemble_key(local_key, remote_key_url)] of the [encryption] module. *)
Variable assemble_key : pyval -> pyval -> result pyval.

Definition configure_app : M App unit :=
  enter "configure_app" ;;
  modify (set_config (from_yaml config_yml)) ;;
  modify (set_settings config_yml).

Definition configure_logging : M App unit :=
  enter "configure_logging" ;;
  app <- get ;;
  handler <- lift (logging_handler logging_attr open_file (settings app)) ;;
  modify (addHandler handler).

Definition configure_database : M App unit :=
  enter "configure_database" ;;
  modify set_db.

Definition configure_hook : M App unit :=
  enter "configure_hook" ;;
  modify (before_request "before_request").

Fixpoint register_all (bps : list string) : M App unit :=
  match bps with
  | [] => ret tt
  | blueprint :: rest =>
      modify (register_blueprint blueprint) ;;
      register_all rest
  end.

Definition configure_blueprints (bps : list string) : M App unit :=
  enter "configure_blueprints" ;;
  register_all bps.

Definition configure_mail : M App unit :=
  enter "configure_mail" ;;
  modify set_mail.

Fixpoint connect_all (receivers : list string) : M App unit :=
  match receivers with
  | [] => ret tt
  | f :: rest => modify (connect_identity_loaded f) ;; connect_all rest
  end.

Fixpoint before_request_all (funcs : list string) : M App unit :=
  match funcs with
  | [] => ret tt
  | f :: rest => modify (before_request f) ;; before_request_all rest
  end.

(** [Security(app, user_datastore)] (lines 208-209). *)
Definition Security : M App unit :=
  app <- get ;;
  cfg <- lift (setdefaults "SECURITY_" (ext_defaults security)
                           (config app)) ;;
  modify (set_config cfg) ;;
  register_all (ext_blueprints security) ;;
  connect_all (ext_receivers security) ;;
  before_request_all (ext_before_request security).

Definition configure_security : M App unit :=
  enter "configure_security" ;;
  Security ;;
  modify (connect_identity_loaded "on_identity_loaded") ;;
  modify (set_user_loader "load_user") ;;
  modify (before_request "before_request").

Definition configure_media_uploads : M App unit :=
  enter "configure_media_uploads" ;;
  app <- get ;;
  served <- lift (configure_uploads (config app)) ;;
  register_all served ;;
  modify (set_uploaded_photos "photos").

Definition configure_encryption : M App unit :=
  enter "configure_encryption" ;;
  app <- get ;;
  enc <- lift (dict_get (config app) "ENCRYPTION") ;;
  local_key <- lift (dict_get enc "LOCAL_KEY") ;;
  enc' <- lift (dict_get (config app) "ENCRYPTION") ;;
  remote_key_url <- lift (dict_get enc' "REMOTE_KEY_URL") ;;
  key <- lift (assemble_key local_key remote_key_url) ;;
  app <- get ;;
  enc'' <- lift (subscript (config app) "ENCRYPTION") ;;
  enc_k <- lift (setitem enc'' "KEY" key) ;;
  cfg <- lift (setitem (config app) "ENCRYPTION" enc_k) ;;
  modify (set_config cfg).

Definition configure_error_handlers : M App unit :=
  enter "configure_error_handlers" ;;
  modify (errorhandler (Status 400) bad_request) ;;
  modify (errorhandler (Status 403) forbidden_request) ;;
  modify (errorhandler (Status 404) not_found) ;;
  modify (errorhandler (Status 405) no_permission) ;;
  modify (errorhandler (Status 500) internal_server_error) ;;
  app <- get ;;
  dbg <- lift (subscript (config app) "DEBUG") ;;
  if is_False dbg
  then modify (errorhandler ExceptionClass internal_exception_handler)
  else ret tt.

(** The body of [create_app] after [app = Flask(app_name)] (lines 87-99). *)
Definition create_app_body (bps : list string) : M App unit :=
  configure_app ;;
  configure_logging ;;
  configure_database ;;
  configure_hook ;;
  configure_blueprints bps ;;
  configure_mail ;;
  configure_security ;;
  configure_error_handlers ;;
  configure_media_uploads ;;
  configure_encryption ;;
  app <- get ;;
  dbg <- lift (subscript (config app) "DEBUG") ;;
  if eq_True dbg then modify (set_debug true) else ret tt.

(** [create_app(app_name, blueprints)]: the application returned, or the
    exception raised; in both cases with the application object as the
    configurators left it. *)
Definition create_app (app_name : option string)
    (bps : option (list string)) : outcome unit * App :=
  let app_name := match app_name with
                  | None => "changebyus.app"
                  | Some n => n
                  end in
  let bps := match bps with
             | None => DEFAULT_BLUEPRINTS
             | Some b => b
             end in
  create_app_body bps (Flask app_name).

End Wiring.

(** * Sample data *)

(** Attributes of the [logging] module: the level constants and, as one
    attribute that is not a level, [BASIC_FORMAT]. *)
Definition level_names (s : string) : option pyval :=
  if (s =? "CRITICAL")%string then Some (PyInt 50)
  else if (s =? "FATAL")%string then Some (PyInt 50)
  else if (s =? "ERROR")%string then Some (PyInt 40)
  else if (s =? "WARNING")%string then Some (PyInt 30)
  else if (s =? "WARN")%string then Some (PyInt 30)
  else if (s =? "INFO")%string then Some (PyInt 20)
  else if (s =? "DEBUG")%string then Some (PyInt 10)
  else if (s =? "NOTSET")%string then Some (PyInt 0)
  else if (s =? "BASIC_FORMAT")%string
       then Some (PyStr "%(levelname)s:%(name)s:%(message)s")
  else None.

(** A log directory in which every non-empty name can be opened. *)
Definition open_in_logs (v : pyval) : result string :=
  match v with
  | PyStr "" => Err IOError
  | PyStr s => Ok ("/var/log/cbu/" ++ s)
  | _ => Err (AttributeError "startswith")
  end.

Definition logging_section (size_mb lev nm rot : pyval) : pyval :=
  PyDict [("SIZE_MB", size_mb); ("LEVEL", lev); ("NAME", nm);
          ("ROTATIONS", rot)].

Definition sample_settings (lg : pyval) : pyval :=
  PyDict [("DEBUG", PyBool false); ("LOGGING", lg);
          ("ENCRYPTION", PyDict [("LOCAL_KEY", PyStr "k");
                                 ("REMOTE_KEY_URL", PyStr "http://keys/")])].

Definition app_with_settings (s : pyval) : App :=
  set_settings s (Flask "changebyus.app").

Definition alice : User :=
  mkUser (Some "5150a1b2c3d4e5f601020304") "alice@example.org"
         (Some [mkRole "admin"; mkRole "editor"])
         (Some [mkPost "5150a1b2c3d4e5f6010203aa"]).

Definition bob : User :=
  mkUser (Some "5150a1b2c3d4e5f601020305") "bob@example.org"
         (Some [mkRole "editor"]) (Some []).

(** A second document with the e-mail address of [bob]. *)
Definition bob_again : User :=
  mkUser (Some "5150a1b2c3d4e5f601020306") "bob@example.org" (Some [])
         (Some []).

Definition sample_users : list User := [alice; bob; bob_again].

Definition request_of (nm : pyval) : Request :=
  mkRequest GAnonymous nm [] None [].

(** * Specifications *)

(** What the annotated handlers do with an error text, by [g.user]: the
    message logged is [label], the user id in brackets when the user is not
    anonymous, and the error text; then the exception is logged and the
    error page is rendered with [page].  Without a [g.user], or without an
    id on it, reading the attribute raises. *)
Definition logs_annotated (h : string -> M Request Response)
    (label page : string) : Prop :=
  forall (error : string) (rq : Request),
    h error rq =
    match g_user rq with
    | GNone => (Raise (AttributeError "is_anonymous"), rq)
    | GAnonymous =>
        (Ret (Rendered "error.html" page),
         emit (LogException error)
              (emit (LogError (Plain (label ++ "" ++ " : " ++ error))) rq))
    | GUser u =>
        match user_id u with
        | Some i =>
            (Ret (Rendered "error.html" page),
             emit (LogException error)
                  (emit (LogError (Plain (label ++ (" user[" ++ i ++ "] ")
                                                ++ " : " ++ error))) rq))
        | None => (Raise (AttributeError "id"), rq)
        end
    end.

(** The order of the calls in [create_app], lines 87-96. *)
Definition call_order : list string :=
  [ "configure_app"; "configure_logging"; "configure_database";
    "configure_hook"; "configure_blueprints"; "configure_mail";
    "configure_security"; "configure_error_handlers";
    "configure_media_uploads"; "configure_encryption" ].

(** The registration order of the specification's system overview: config
    loader, logging, database, request hook, blueprints, mail, security,
    uploads, encryption, error handlers. *)
Definition overview_order : list string :=
  [ "configure_app"; "configure_logging"; "configure_database";
    "configure_hook"; "configure_blueprints"; "configure_mail";
    "configure_security"; "configure_media_uploads";
    "configure_encryption"; "configure_error_handlers" ].

(** A sample configuration file and its environment. *)
Definition sample_yml (dbg : pyval) : pyval :=
  PyDict [("DEBUG", dbg);
          ("LOGGING", logging_section (PyInt 10) (PyStr "INFO")
                                      (PyStr "cbu.log") (PyInt 5));
          ("ENCRYPTION", PyDict [("LOCAL_KEY", PyStr "k");
                                 ("REMOTE_KEY_URL", PyStr "http://keys/")]);
          ("UPLOADED_PHOTOS_DEST", PyStr "/srv/cbu/photos")].

(** The sample configuration in production without a destination for the
    uploads. *)
Definition sample_yml_no_uploads : pyval :=
  PyDict [("DEBUG", PyBool false);
          ("LOGGING", logging_section (PyInt 10) (PyStr "INFO")
                                      (PyStr "cbu.log") (PyInt 5));
          ("ENCRYPTION", PyDict [("LOCAL_KEY", PyStr "k");
                                 ("REMOTE_KEY_URL", PyStr "http://keys/")])].

(** A security extension with one default, one blueprint, one receiver and
    one function run before each request. *)
Definition sample_security : Extension :=
  mkExtension [("PASSWORD_HASH", PyStr "plaintext")] ["security"]
              ["_on_identity_loaded"] ["_on_before_request"].

(** An uploads extension that needs a destination for the photos, from
    [UPLOADED_PHOTOS_DEST] or from [UPLOADS_DEFAULT_DEST], and serves the
    files itself. *)
Definition sample_configure_uploads (cfg : pyval) : result (list string) :=
  rbind (dict_get cfg "UPLOADED_PHOTOS_DEST") (fun dest =>
  rbind (dict_get cfg "UPLOADS_DEFAULT_DEST") (fun default_dest =>
  match dest, default_dest with
  | PyNone, PyNone => Err (RuntimeError "no destination for set photos")
  | _, _ => Ok ["_uploads"]
  end)).

Definition sample_from_yaml (doc : pyval) : pyval := doc.

Definition sample_assemble_key (local_key remote_key_url : pyval)
  : result pyval :=
  match local_key, remote_key_url with
  | PyStr a, PyStr b => Ok (PyStr (a ++ b))
  | _, _ => Err TypeError
  end.

Definition sample_create_app (dbg : pyval) : outcome unit * App :=
  create_app level_names open_in_logs sample_security
             sample_configure_uploads (sample_yml dbg) sample_from_yaml
             sample_assemble_key None None.

Definition app_with_config (cfg : pyval) : App :=
  set_config cfg (Flask "changebyus.app").

(** * Properties *)

(** ** Results and computations *)

Lemma rbind_Ok {A B} (r : result A) (k : A -> result B) (b : B) :
  rbind r k = Ok b -> exists a, r = Ok a /\ k a = Ok b.
Proof.
  destruct r as [a|e]; simpl; intros H; [eauto | discriminate].
Qed.

Lemma bind_Ret {S A B} (m : M S A) (k : A -> M S B) (s s2 : S) (b : B) :
  bind m k s = (Ret b, s2) ->
  exists a s1, m s = (Ret a, s1) /\ k a s1 = (Ret b, s2).
Proof.
  unfold bind. destruct (m s) as [[a|e] s1]; intros H.
  - eauto.
  - discriminate.
Qed.

Example py_int_text : py_int (PyStr " 12 ") = Ok 12.
Proof. reflexivity. Qed.

Example py_int_negative : py_int (PyStr "-7") = Ok (-7).
Proof. reflexivity. Qed.

Example py_int_bad : py_int (PyStr "1x") = Err ValueError.
Proof. reflexivity. Qed.

(** ** Logging *)

Section LoggingFacts.

Variable logging_attr : string -> option pyval.
Variable open_file : pyval -> result string.

(** Whatever the configuration, a handler that is built has the constant
    size of the constructor call, and the file it opened is the one named by
    [app.settings['LOGGING']['NAME']]. *)
Lemma logging_handler_built (s : pyval) (h : Handler) :
  logging_handler logging_attr open_file s = Ok h ->
  maxBytes h = 25 * megabyte /\
  exists lg nm, subscript s "LOGGING" = Ok lg /\ subscript lg "NAME" = Ok nm
                /\ open_file nm = Ok (baseFilename h).
Proof.
  unfold logging_handler. intros H.
  apply rbind_Ok in H as (dbg & _ & H).
  apply rbind_Ok in H as (lg & Hlg & H).
  apply rbind_Ok in H as (l & _ & H).
  apply rbind_Ok in H as (nm & Hnm & H).
  apply rbind_Ok in H as (h0 & Hh0 & H).
  unfold RotatingFileHandler in Hh0.
  apply rbind_Ok in Hh0 as (path & Hpath & Hh0).
  apply rbind_Ok in H as (h1 & Hh1 & H).
  unfold setLevel in Hh1. apply rbind_Ok in Hh1 as (v & _ & Hh1).
  injection Hh0 as <-. injection Hh1 as <-. injection H as <-. simpl.
  split; [reflexivity|].
  rewrite Hlg in Hnm. simpl in Hnm. eauto.
Qed.

(** With every key of the [LOGGING] mapping present, the handler is built
    from the [ROTATIONS] value when it is true in a condition, and from the
    default 10 otherwise. *)
Lemma logging_handler_rotations (d lg : list (string * pyval))
    (dbg size_mb lev nm rot : pyval) (path : string) :
  assoc "DEBUG" d = Some dbg ->
  assoc "LOGGING" d = Some (PyDict lg) ->
  assoc "SIZE_MB" lg = Some size_mb ->
  assoc "LEVEL" lg = Some lev ->
  assoc "NAME" lg = Some nm ->
  assoc "ROTATIONS" lg = Some rot ->
  (truthy size_mb = true -> exists n, py_int size_mb = Ok n) ->
  (truthy lev = true ->
   exists v v', logging_getattribute logging_attr lev = Ok v /\
                checkLevel v = Ok v') ->
  open_file nm = Ok path ->
  exists h, logging_handler logging_attr open_file (PyDict d) = Ok h /\
            backupCount h = (if truthy rot then rot else PyInt 10).
Proof.
  intros Hdbg Hlg Hsz Hlev Hnm Hrot Hint Hattr Hopen.
  assert (Ht : truthy (PyDict lg) = true).
  { destruct lg; [discriminate | reflexivity]. }
  unfold logging_handler, logging_block, RotatingFileHandler,
    subscript.
  rewrite Hdbg, Hlg. cbn [rbind]. rewrite Ht.
  rewrite Hsz, Hlev, Hnm, Hrot. cbn [rbind].
  assert (Hsize : exists n,
    (if truthy size_mb
     then rbind (py_int size_mb) (fun n => Ok (n * megabyte))
     else Ok (25 * megabyte)) = Ok n).
  { destruct (truthy size_mb); [|eauto].
    destruct Hint as [n ->]; [reflexivity|]. simpl. eauto. }
  destruct Hsize as [n Hn]. cbn [logsize]. rewrite Hn. cbn [rbind].
  assert (Hlevel : exists v v',
    (if truthy lev then logging_getattribute logging_attr lev
     else Ok (if truthy dbg then logging_DEBUG else logging_INFO)) = Ok v
    /\ checkLevel v = Ok v').
  { destruct (truthy lev); [now apply Hattr|].
    destruct (truthy dbg); eexists; eexists; split; reflexivity. }
  destruct Hlevel as (v & v' & Hv & Hv'). cbn [lvl]. rewrite Hv.
  cbn [rbind]. unfold setLevel.
  destruct (truthy nm); cbn [rbind];
    destruct (truthy rot); cbn [rbind rotations lvl]; rewrite Hopen;
    cbn [rbind]; rewrite Hv'; cbn [rbind]; eexists; split; reflexivity.
Qed.

(** A [LOGGING] mapping without the [ROTATIONS] key makes
    [configure_logging] raise [KeyError]. *)
Lemma logging_handler_rotations_missing (d lg : list (string * pyval))
    (dbg size_mb lev nm : pyval) :
  assoc "DEBUG" d = Some dbg ->
  assoc "LOGGING" d = Some (PyDict lg) ->
  assoc "SIZE_MB" lg = Some size_mb ->
  assoc "LEVEL" lg = Some lev ->
  assoc "NAME" lg = Some nm ->
  assoc "ROTATIONS" lg = None ->
  (truthy size_mb = true -> exists n, py_int size_mb = Ok n) ->
  (truthy lev = true ->
   exists v, logging_getattribute logging_attr lev = Ok v) ->
  logging_handler logging_attr open_file (PyDict d) = Err (KeyError "ROTATIONS").
Proof.
  intros Hdbg Hlg Hsz Hlev Hnm Hrot Hint Hattr.
  assert (Ht : truthy (PyDict lg) = true).
  { destruct lg; [discriminate | reflexivity]. }
  unfold logging_handler, logging_block, subscript.
  rewrite Hdbg, Hlg. cbn [rbind]. rewrite Ht.
  rewrite Hsz, Hlev, Hnm, Hrot. cbn [rbind].
  destruct (truthy size_mb).
  - destruct Hint as [n ->]; [reflexivity|]. cbn [rbind].
    destruct (truthy lev).
    + destruct Hattr as [v ->]; [reflexivity|]. cbn [rbind].
      destruct (truthy nm); reflexivity.
    + cbn [rbind]. destruct (truthy nm); reflexivity.
  - cbn [rbind]. destruct (truthy lev).
    + destruct Hattr as [v ->]; [reflexivity|]. cbn [rbind].
      destruct (truthy nm); reflexivity.
    + cbn [rbind]. destruct (truthy nm); reflexivity.
Qed.

End LoggingFacts.

Section ConfigureLogging.

Variable logging_attr : string -> option pyval.
Variable open_file : pyval -> result string.

(** [configure_logging] adds the handler built from [app.settings], or
    raises what building it raised. *)
Lemma configure_logging_run (app : App) :
  exists app0,
    settings app0 = settings app /\
    logger_handlers app0 = logger_handlers app /\
    configure_logging logging_attr open_file app =
    match logging_handler logging_attr open_file (settings app) with
    | Ok h => (Ret tt, addHandler h app0)
    | Err e => (Raise e, app0)
    end.
Proof.
  eexists. split; [|split]; cycle 2.
  - unfold configure_logging, bind, enter, modify, get, lift.
    cbn [settings].
    destruct (logging_handler logging_attr open_file (settings app));
      reflexivity.
  - reflexivity.
  - reflexivity.
Qed.

(** C1: the handler that [configure_logging] attaches has [maxBytes] equal
    to 25 megabytes whatever [LOGGING.SIZE_MB] says: the size computed from
    the key is not the one given to the constructor.  The claim that
    [maxBytes] is [SIZE_MB] megabytes therefore fails on the code. *)
Theorem configure_logging_maxBytes (app app' : App) :
  configure_logging logging_attr open_file app = (Ret tt, app') ->
  exists h, logger_handlers app' = (logger_handlers app ++ [h])%list /\
            maxBytes h = 25 * 1048576.
Proof.
  intros H.
  destruct (configure_logging_run app) as (app0 & _ & Hh & Hrun).
  rewrite Hrun in H.
  destruct (logging_handler logging_attr open_file (settings app))
    as [h|e] eqn:E; [|discriminate].
  injection H as <-. exists h. split.
  - simpl. now rewrite Hh.
  - apply (logging_handler_built logging_attr open_file _ _ E).
Qed.

(** C7, as amended: when the [LOGGING] mapping holds its four keys and the
    handler can be built (the size converts, the level, when given, is an
    attribute of [logging] that is a level, and the file opens), its backup
    count is the [ROTATIONS] value if that value is true in a condition, and
    10 if it is null, zero or empty. *)
Theorem configure_logging_backupCount (app : App)
    (d lg : list (string * pyval)) (dbg size_mb lev nm rot : pyval)
    (path : string) :
  settings app = PyDict d ->
  assoc "DEBUG" d = Some dbg ->
  assoc "LOGGING" d = Some (PyDict lg) ->
  assoc "SIZE_MB" lg = Some size_mb ->
  assoc "LEVEL" lg = Some lev ->
  assoc "NAME" lg = Some nm ->
  assoc "ROTATIONS" lg = Some rot ->
  (truthy size_mb = true -> exists n, py_int size_mb = Ok n) ->
  (truthy lev = true ->
   exists v v', logging_getattribute logging_attr lev = Ok v /\
                checkLevel v = Ok v') ->
  open_file nm = Ok path ->
  exists h app',
    configure_logging logging_attr open_file app = (Ret tt, app') /\
    logger_handlers app' = (logger_handlers app ++ [h])%list /\
    backupCount h = (if truthy rot then rot else PyInt 10).
Proof.
  intros Hs Hdbg Hlg Hsz Hlev Hnm Hrot Hint Hattr Hopen.
  destruct (logging_handler_rotations logging_attr open_file d lg dbg size_mb
              lev nm rot path Hdbg Hlg Hsz Hlev Hnm Hrot Hint Hattr Hopen)
    as (h & Hh & Hcount).
  destruct (configure_logging_run app) as (app0 & _ & Hhs & Hrun).
  rewrite Hs, Hh in Hrun.
  exists h, (addHandler h app0). split; [exact Hrun|]. split.
  - simpl. now rewrite Hhs.
  - exact Hcount.
Qed.

(** C6: with [LOGGING.NAME] empty the file that is opened is the one named
    by the empty text, and with the key missing [configure_logging] raises
    [KeyError]; in neither case is the default name [flask.log] used. *)
Theorem configure_logging_name_default_unused :
  let empty_name :=
    app_with_settings
      (sample_settings (logging_section (PyInt 25) PyNone (PyStr "")
                                        (PyInt 10))) in
  let no_name :=
    app_with_settings
      (sample_settings (PyDict [("SIZE_MB", PyInt 25); ("LEVEL", PyNone);
                                ("ROTATIONS", PyInt 10)])) in
  match open_file (PyStr "") with
  | Ok path =>
      logger_handlers
        (snd (configure_logging logging_attr open_file empty_name)) =
      [mkHandler path (25 * megabyte) (PyInt 10) logging_INFO log_format]
  | Err e =>
      fst (configure_logging logging_attr open_file empty_name) = Raise e
  end /\
  configure_logging logging_attr open_file no_name =
  (Raise (KeyError "NAME"), snd (enter "configure_logging" no_name)).
Proof.
  split.
  - unfold configure_logging, bind, enter, modify, get, lift.
    cbn -[megabyte log_format]. unfold RotatingFileHandler.
    destruct (open_file (PyStr "")); reflexivity.
  - reflexivity.
Qed.

End ConfigureLogging.

(** C1 at [SIZE_MB: 10]: the handler is attached with 26214400 bytes, not
    10485760. *)
Lemma configure_logging_maxBytes_size_10 :
  let app := app_with_settings
    (sample_settings (logging_section (PyInt 10) (PyStr "INFO")
                                      (PyStr "cbu.log") (PyInt 5))) in
  exists app' h,
    configure_logging level_names open_in_logs app = (Ret tt, app') /\
    logger_handlers app' = (logger_handlers app ++ [h])%list /\
    maxBytes h = 26214400 /\ maxBytes h <> 10 * 1048576.
Proof.
  intros app.
  destruct (configure_logging level_names open_in_logs app)
    as [o app'] eqn:E.
  assert (Ho : o = Ret tt) by (vm_compute in E; congruence).
  subst o.
  destruct (configure_logging_maxBytes level_names open_in_logs app app' E)
    as (h & Hh & Hm).
  exists app', h. repeat split; try assumption.
  rewrite Hm. discriminate.
Defined.

(** C7 at [ROTATIONS: 5]. *)
Lemma configure_logging_backupCount_5 :
  let app := app_with_settings
    (sample_settings (logging_section (PyInt 10) (PyStr "INFO")
                                      (PyStr "cbu.log") (PyInt 5))) in
  exists h app',
    configure_logging level_names open_in_logs app = (Ret tt, app') /\
    logger_handlers app' = (logger_handlers app ++ [h])%list /\
    backupCount h = PyInt 5.
Proof.
  intros app.
  refine (configure_logging_backupCount level_names open_in_logs app
            _ _ (PyBool false) (PyInt 10) (PyStr "INFO") (PyStr "cbu.log")
            (PyInt 5) "/var/log/cbu/cbu.log"
            eq_refl eq_refl eq_refl eq_refl eq_refl eq_refl eq_refl _ _
            eq_refl).
  - intros _. exists 10. reflexivity.
  - intros _. exists (PyInt 20), (PyInt 20). split; reflexivity.
Defined.

(** C7 as stated fails: without the [ROTATIONS] key no handler is attached
    and [KeyError] is raised, and [ROTATIONS: 0] gives the backup count 10,
    not 0. *)
Lemma configure_logging_backupCount_counterexample :
  let no_rotations :=
    app_with_settings
      (sample_settings (PyDict [("SIZE_MB", PyInt 25);
                                ("LEVEL", PyStr "INFO");
                                ("NAME", PyStr "cbu.log")])) in
  let zero_rotations :=
    app_with_settings
      (sample_settings (logging_section (PyInt 25) (PyStr "INFO")
                                        (PyStr "cbu.log") (PyInt 0))) in
  (fst (configure_logging level_names open_in_logs no_rotations) =
     Raise (KeyError "ROTATIONS") /\
   logger_handlers
     (snd (configure_logging level_names open_in_logs no_rotations)) = []) /\
  (exists h,
     logger_handlers
       (snd (configure_logging level_names open_in_logs zero_rotations)) =
     [h] /\
     backupCount h = PyInt 10 /\ backupCount h <> PyInt 0).
Proof.
  split; [split; reflexivity|].
  eexists. split; [reflexivity|]. split; [reflexivity|discriminate].
Qed.


(** ** Identity loading *)

Lemma set_add_In (n x : Need) (s : list Need) :
  In x (set_add n s) -> x = n \/ In x s.
Proof.
  unfold set_add. destruct (existsb (need_eqb n) s); intros H.
  - now right.
  - apply in_app_or in H as [H|[H|[]]]; auto.
Qed.

(** The loop over the roles returns, touches only [identity.provides], and
    adds role needs only. *)
Lemma add_role_needs_run (roles : list Role) (rq : Request) :
  exists rq',
    add_role_needs roles rq = (Ret tt, rq') /\
    g_user rq' = g_user rq /\
    identity_name rq' = identity_name rq /\
    identity_user rq' = identity_user rq /\
    logged rq' = logged rq /\
    forall x, In x (identity_provides rq') ->
              In x (identity_provides rq) \/ exists r, x = RoleNeed r.
Proof.
  revert rq. induction roles as [|role rest IH]; intros rq.
  - exists rq. simpl. unfold ret. repeat split; auto.
  - destruct (IH (provide (RoleNeed (role_name role)) rq))
      as (rq' & Hrun & Hg & Hn & Hu & Hl & Hp).
    exists rq'. cbn [add_role_needs]. unfold bind, modify at 1.
    rewrite Hrun. repeat split; auto.
    intros x Hx. apply Hp in Hx as [Hx|Hx]; [|now right].
    cbn [provide identity_provides] in Hx.
    apply set_add_In in Hx as [->|Hx]; eauto.
Qed.

Lemma count_gt_1 (q : list User) :
  count q > 1 -> (count q >? 1) = true.
Proof. intros H. apply Z.gtb_lt. lia. Qed.

(** C3: when the lookup of the identity's name, by object id or by e-mail
    address, matches more than one user, the handler logs an error message
    and then raises: the message is in the log when the exception leaves. *)
Theorem on_identity_loaded_ambiguous (users q : list User) (rq : Request) :
  lookup_user users (identity_name rq) = Some q ->
  count q > 1 ->
  on_identity_loaded users rq =
  (Raise (Exception_ login_error),
   emit (LogError (Interp "Got more than one match for user login %s"
                          (identity_name rq)))
        (set_g_user GNone rq)).
Proof.
  intros Hq Hc. apply count_gt_1 in Hc.
  unfold on_identity_loaded, bind, modify, get. cbn [identity_name set_g_user].
  destruct (identity_name rq) eqn:En; try discriminate Hq;
    rewrite Hq, Hc; reflexivity.
Qed.

(** C9: when the lookup matches no user, the handler returns with
    [g.user] empty and with the identity's needs, its user and the log as
    they were. *)
Theorem on_identity_loaded_no_match (users q : list User) (rq : Request) :
  lookup_user users (identity_name rq) = Some q ->
  count q = 0 ->
  exists rq',
    on_identity_loaded users rq = (Ret tt, rq') /\
    g_user rq' = GNone /\
    identity_provides rq' = identity_provides rq /\
    identity_user rq' = identity_user rq /\
    logged rq' = logged rq.
Proof.
  intros Hq Hc. exists (set_g_user GNone rq).
  split; [|repeat split].
  unfold on_identity_loaded, bind, modify, get. cbn [identity_name set_g_user].
  destruct (identity_name rq) eqn:En; try discriminate Hq;
    rewrite Hq, Hc; reflexivity.
Qed.

(** C10: a name that is not [None], not an object id and not text leaves
    the local [user] unbound, and the handler fails at the count check with
    an unbound-local error instead of returning. *)
Theorem on_identity_loaded_unbound_user (users : list User) (rq : Request) :
  identity_name rq <> PyNone ->
  (forall oid, identity_name rq <> PyOid oid) ->
  (forall s, identity_name rq <> PyStr s) ->
  on_identity_loaded users rq =
  (Raise (UnboundLocalError "user"), set_g_user GNone rq).
Proof.
  intros Hnone Hoid Hstr.
  unfold on_identity_loaded, bind, modify, get. cbn [identity_name set_g_user].
  destruct (identity_name rq) eqn:En; try reflexivity.
  - contradiction.
  - exfalso. eapply Hstr. reflexivity.
  - exfalso. eapply Hoid. reflexivity.
Qed.

(** C2: for a single matching user with at least one authored post, the
    handler raises [NameError] at the first post: [EditBlogPostNeed] is not
    bound in the module.  No edit need is added, and neither [identity.user]
    nor [g.user] receives the user.  The claim that the edit permissions
    are added and the handler completes therefore fails on the code. *)
Theorem on_identity_loaded_posts_raise (users : list User) (u : User)
    (post : Post) (posts : list Post) (rq : Request) :
  lookup_user users (identity_name rq) = Some [u] ->
  user_posts u = Some (post :: posts) ->
  exists rq',
    on_identity_loaded users rq = (Raise (NameError "EditBlogPostNeed"), rq')
    /\ g_user rq' = GNone
    /\ identity_user rq' = identity_user rq
    /\ forall callee arg,
         In (CalledNeed callee arg) (identity_provides rq') ->
         In (CalledNeed callee arg) (identity_provides rq).
Proof.
  intros Hq Hposts.
  unfold on_identity_loaded, bind at 1 2, modify at 1, get.
  cbn [identity_name set_g_user].
  assert (Hrun : exists rq',
    (let user := first [u] in
     match user with
     | Some {| user_id := Some i |} => modify (provide (UserNeed i))
     | _ => ret tt
     end ;;
     match user with
     | Some {| user_roles := Some roles |} => add_role_needs roles
     | _ => ret tt
     end ;;
     match user with
     | Some {| user_posts := Some posts |} => add_post_needs posts
     | _ => ret tt
     end ;;
     modify (set_identity_user user) ;;
     modify (set_g_user match user with
                        | Some u => GUser u
                        | None => GNone
                        end)) (set_g_user GNone rq)
    = (Raise (NameError "EditBlogPostNeed"), rq')
    /\ g_user rq' = GNone
    /\ identity_user rq' = identity_user rq
    /\ forall callee arg,
         In (CalledNeed callee arg) (identity_provides rq') ->
         In (CalledNeed callee arg) (identity_provides rq)).
  { cbn [first hd_error].
    destruct u as [uid email uroles uposts]. cbn [user_posts] in Hposts.
    subst uposts.
    set (rq1 := match uid with
                | Some i => provide (UserNeed i) (set_g_user GNone rq)
                | None => set_g_user GNone rq
                end).
    assert (H1 : g_user rq1 = GNone /\ identity_user rq1 = identity_user rq
                 /\ forall callee arg,
                      In (CalledNeed callee arg) (identity_provides rq1) ->
                      In (CalledNeed callee arg) (identity_provides rq)).
    { subst rq1. destruct uid; cbn; repeat split; auto.
      intros callee arg H. apply set_add_In in H as [H|H];
        [discriminate | exact H]. }
    destruct H1 as (Hg1 & Hu1 & Hp1).
    assert (H2 : exists rq2,
      match uroles with
      | Some roles => add_role_needs roles
      | None => ret tt
      end rq1 = (Ret tt, rq2)
      /\ g_user rq2 = GNone /\ identity_user rq2 = identity_user rq
      /\ forall callee arg,
           In (CalledNeed callee arg) (identity_provides rq2) ->
           In (CalledNeed callee arg) (identity_provides rq)).
    { destruct uroles as [roles|].
      - destruct (add_role_needs_run roles rq1)
          as (rq2 & Hrun & Hg & _ & Hu & _ & Hp).
        exists rq2. repeat split; try congruence.
        intros callee arg H. apply Hp in H as [H|[r H]];
          [auto | discriminate].
      - exists rq1. unfold ret. auto. }
    destruct H2 as (rq2 & Hrun2 & Hg2 & Hu2 & Hp2).
    exists rq2. split; [|auto].
    unfold bind.
    destruct uid; [unfold modify | unfold ret at 1; cbv beta iota];
      fold rq1; rewrite Hrun2; reflexivity. }
  destruct Hrun as (rq' & Hrun & Hrest).
  exists rq'. split; [|exact Hrest].
  destruct (identity_name rq) eqn:En; try discriminate Hq;
    rewrite Hq; cbn [count List.length Z.of_nat Z.gtb Z.eqb Z.compare
                     Pos.compare Pos.compare_cont Pos.of_succ_nat];
    exact Hrun.
Qed.

(** C3 at the e-mail address that two sample users share. *)
Lemma on_identity_loaded_ambiguous_bob :
  on_identity_loaded sample_users (request_of (PyStr "bob@example.org")) =
  (Raise (Exception_ login_error),
   mkRequest GNone (PyStr "bob@example.org") [] None
     [LogError (Interp "Got more than one match for user login %s"
                       (PyStr "bob@example.org"))]).
Proof.
  apply (on_identity_loaded_ambiguous sample_users [bob; bob_again]
           (request_of (PyStr "bob@example.org"))).
  - reflexivity.
  - reflexivity.
Defined.

(** C9 at an address that no sample user has. *)
Lemma on_identity_loaded_no_match_nobody :
  exists rq',
    on_identity_loaded sample_users (request_of (PyStr "nobody")) =
    (Ret tt, rq') /\
    g_user rq' = GNone /\ identity_provides rq' = [] /\
    identity_user rq' = None /\ logged rq' = [].
Proof.
  apply (on_identity_loaded_no_match sample_users []
           (request_of (PyStr "nobody"))).
  - reflexivity.
  - reflexivity.
Defined.

(** C10 at the integer name 7. *)
Lemma on_identity_loaded_unbound_user_7 :
  on_identity_loaded sample_users (request_of (PyInt 7)) =
  (Raise (UnboundLocalError "user"), mkRequest GNone (PyInt 7) [] None []).
Proof.
  apply (on_identity_loaded_unbound_user sample_users (request_of (PyInt 7))).
  - discriminate.
  - discriminate.
  - discriminate.
Defined.

(** C2 at [alice], who has one authored post. *)
Lemma on_identity_loaded_posts_raise_alice :
  exists rq',
    on_identity_loaded sample_users
      (request_of (PyStr "alice@example.org")) =
    (Raise (NameError "EditBlogPostNeed"), rq')
    /\ g_user rq' = GNone
    /\ identity_user rq' = None
    /\ forall callee arg,
         In (CalledNeed callee arg) (identity_provides rq') -> False.
Proof.
  apply (on_identity_loaded_posts_raise sample_users alice
           (mkPost "5150a1b2c3d4e5f6010203aa") []
           (request_of (PyStr "alice@example.org"))).
  - reflexivity.
  - reflexivity.
Defined.

(** A single matching user without authored posts is loaded: the handler
    returns and [g.user] is the user. *)
Lemma on_identity_loaded_bob :
  on_identity_loaded sample_users
    (request_of (PyOid "5150a1b2c3d4e5f601020305")) =
  (Ret tt,
   mkRequest (GUser bob) (PyOid "5150a1b2c3d4e5f601020305")
     [UserNeed "5150a1b2c3d4e5f601020305"; RoleNeed "editor"] (Some bob) []).
Proof. reflexivity. Qed.

(** ** Error handlers *)

Lemma filter_none {A} (f : A -> bool) (l : list A) :
  existsb f l = false -> filter f (rev l) = [].
Proof.
  intros H.
  assert (Hall : forall x, In x (rev l) -> f x = false).
  { intros x Hx. apply in_rev in Hx.
    destruct (f x) eqn:E; [|reflexivity].
    assert (Hex : existsb f l = true) by (apply existsb_exists; eauto).
    congruence. }
  induction (rev l) as [|a r IH]; [reflexivity|].
  simpl. rewrite (Hall a (or_introl eq_refl)).
  apply IH. intros x Hx. apply Hall. now right.
Qed.

(** Whatever was registered before and whether or not the [DEBUG] key can
    be read, [configure_error_handlers] leaves the five status handlers
    registered. *)
Lemma configure_error_handlers_status (app : App) :
  let app' := snd (configure_error_handlers app) in
  handler_for (Status 400) app' = Some bad_request /\
  handler_for (Status 403) app' = Some forbidden_request /\
  handler_for (Status 404) app' = Some not_found /\
  handler_for (Status 405) app' = Some no_permission /\
  handler_for (Status 500) app' = Some internal_server_error.
Proof.
  unfold configure_error_handlers, bind, enter, modify, get, lift.
  cbn [snd fst config errorhandler error_handlers].
  destruct (subscript (config app) "DEBUG") as [dbg|e];
    unfold ret, raise, modify, handler_for;
    [destruct (is_False dbg)|];
    cbn [snd fst config errorhandler error_handlers];
    rewrite !rev_app_distr; repeat split; reflexivity.
Qed.

Lemma annotated_400 :
  logs_annotated bad_request "400 error occured "
                 "Sorry, this page is missing.".
Proof.
  intros error rq. unfold bad_request, userStr. unfold bind, get. cbv beta iota.
  destruct (g_user rq) as [| |u]; [reflexivity | reflexivity |].
  destruct (user_id u); reflexivity.
Qed.

Lemma annotated_403 :
  logs_annotated forbidden_request "403 error occured "
                 "Sorry, forbidden request.".
Proof.
  intros error rq. unfold forbidden_request, userStr. unfold bind, get. cbv beta iota.
  destruct (g_user rq) as [| |u]; [reflexivity | reflexivity |].
  destruct (user_id u); reflexivity.
Qed.

Lemma annotated_405 :
  logs_annotated no_permission "405 error occured "
                 "Sorry, you're not authorized to see this page.".
Proof.
  intros error rq. unfold no_permission, userStr. unfold bind, get. cbv beta iota.
  destruct (g_user rq) as [| |u]; [reflexivity | reflexivity |].
  destruct (user_id u); reflexivity.
Qed.

Lemma annotated_500 :
  logs_annotated internal_server_error "500 error occured "
                 "Sorry, there was a server error.".
Proof.
  intros error rq. unfold internal_server_error, userStr. unfold bind, get. cbv beta iota.
  destruct (g_user rq) as [| |u]; [reflexivity | reflexivity |].
  destruct (user_id u); reflexivity.
Qed.

(** C4, as amended: when [configure_error_handlers] returns (the [DEBUG]
    configuration can be read), the handlers registered for 400, 403, 405
    and 500, run with the anonymous user or a user with an id in [g.user],
    log a message annotated with the status and, for a user who is not
    anonymous, the user id, then log the exception, and return the error
    page with their own text; run with [g.user] [None], or with a user
    without an id, they raise [AttributeError] and log nothing.  The handler
    registered for 404 logs the error text alone and returns the error page
    with its own text, whatever [g.user] is. *)
Theorem status_handlers_logging (app : App) (dbg : pyval) :
  subscript (config app) "DEBUG" = Ok dbg ->
  exists app',
    configure_error_handlers app = (Ret tt, app') /\
    (exists h, handler_for (Status 400) app' = Some h /\
               logs_annotated h "400 error occured "
                              "Sorry, this page is missing.") /\
    (exists h, handler_for (Status 403) app' = Some h /\
               logs_annotated h "403 error occured "
                              "Sorry, forbidden request.") /\
    (exists h, handler_for (Status 405) app' = Some h /\
               logs_annotated h "405 error occured "
                 "Sorry, you're not authorized to see this page.") /\
    (exists h, handler_for (Status 500) app' = Some h /\
               logs_annotated h "500 error occured "
                              "Sorry, there was a server error.") /\
    (exists h, handler_for (Status 404) app' = Some h /\
               forall (error : string) (rq : Request),
                 h error rq =
                 (Ret (Rendered "error.html"
                                "Sorry, this page doesn't exist."),
                  emit (LogError (Plain error)) rq)).
Proof.
  intros Hdbg.
  destruct (configure_error_handlers_status app)
    as (H400 & H403 & H404 & H405 & H500).
  assert (Hret : fst (configure_error_handlers app) = Ret tt).
  { unfold configure_error_handlers, bind, enter, modify, get, lift.
    cbn [snd fst config errorhandler error_handlers].
    rewrite Hdbg. unfold ret at 1.
    destruct (is_False dbg); reflexivity. }
  destruct (configure_error_handlers app) as [o app'].
  cbn [fst snd] in *. subst o.
  exists app'. split; [reflexivity|]. repeat split.
  - exists bad_request. split; [exact H400 | exact annotated_400].
  - exists forbidden_request. split; [exact H403 | exact annotated_403].
  - exists no_permission. split; [exact H405 | exact annotated_405].
  - exists internal_server_error. split; [exact H500 | exact annotated_500].
  - exists not_found. split; [exact H404 | reflexivity].
Qed.

(** C4 at the sample configuration: the handler registered for 400, run
    for a sample user, logs the message with the user's id and the
    exception and renders the page. *)
Lemma status_handlers_logging_sample :
  exists app' h,
    configure_error_handlers (app_with_config (sample_yml (PyBool false))) =
      (Ret tt, app') /\
    handler_for (Status 400) app' = Some h /\
    h "400: Bad Request" (mkRequest (GUser bob) PyNone [] None []) =
    (Ret (Rendered "error.html" "Sorry, this page is missing."),
     mkRequest (GUser bob) PyNone [] None
       [LogError (Plain
          "400 error occured  user[5150a1b2c3d4e5f601020305]  : 400: Bad Request");
        LogException "400: Bad Request"]).
Proof.
  destruct (status_handlers_logging
              (app_with_config (sample_yml (PyBool false))) (PyBool false)
              eq_refl)
    as (app' & Hrun & (h & Hh & Hlog) & _).
  exists app', h. split; [exact Hrun|]. split; [exact Hh|].
  exact (Hlog "400: Bad Request" (mkRequest (GUser bob) PyNone [] None [])).
Defined.

(** C4 as stated fails twice.  At 404, for a known user, the registered
    handler logs the error text only, without the user id and without
    logging the exception.  At 400, with [g.user] [None] as the identity
    handler leaves it, the registered handler raises [AttributeError]: it
    logs nothing and renders no page. *)
Lemma status_handlers_logging_counterexample :
  let app' :=
    snd (configure_error_handlers
           (app_with_config (sample_yml (PyBool false)))) in
  let rq := mkRequest (GUser alice) PyNone [] None [] in
  let rq_none := mkRequest GNone PyNone [] None [] in
  (exists h,
     handler_for (Status 404) app' = Some h /\
     h "404: Not Found" rq =
     (Ret (Rendered "error.html" "Sorry, this page doesn't exist."),
      mkRequest (GUser alice) PyNone [] None
                [LogError (Plain "404: Not Found")]) /\
     ~ In (LogException "404: Not Found")
          (logged (snd (h "404: Not Found" rq)))) /\
  (exists h,
     handler_for (Status 400) app' = Some h /\
     h "400: Bad Request" rq_none =
     (Raise (AttributeError "is_anonymous"), rq_none)).
Proof.
  split.
  - exists not_found. split; [reflexivity|]. split; [reflexivity|].
    cbn. intros [H|[]]. discriminate.
  - exists bad_request. split; reflexivity.
Qed.

(** C8: on an application without a catch-all, [configure_error_handlers]
    registers the handler for [Exception] exactly when the [DEBUG]
    configuration is [False]; with [DEBUG] [True] there is no handler for
    [Exception] afterwards. *)
Theorem catch_all_only_in_production (app : App) (dbg : pyval) :
  subscript (config app) "DEBUG" = Ok dbg ->
  registered ExceptionClass app = false ->
  exists app',
    configure_error_handlers app = (Ret tt, app') /\
    (registered ExceptionClass app' = true <-> dbg = PyBool false) /\
    (dbg = PyBool false ->
     handler_for ExceptionClass app' = Some internal_exception_handler) /\
    (dbg = PyBool true -> handler_for ExceptionClass app' = None).
Proof.
  intros Hdbg Hreg.
  unfold configure_error_handlers, bind, enter, modify, get, lift.
  cbn [snd fst config errorhandler error_handlers].
  rewrite Hdbg. unfold ret at 1.
  unfold registered in Hreg.
  pose proof (filter_none _ _ Hreg) as Hnone.
  destruct (is_False dbg) eqn:Ef.
  - assert (dbg = PyBool false) as ->.
    { destruct dbg as [|[|]| | | | |]; try discriminate Ef; reflexivity. }
    eexists. split; [reflexivity|].
    unfold registered, handler_for.
    cbn [snd fst config errorhandler error_handlers].
    rewrite !existsb_app, !rev_app_distr. cbn.
    rewrite !orb_true_r. repeat split; auto; discriminate.
  - eexists. split; [reflexivity|].
    unfold registered, handler_for.
    cbn [snd fst config errorhandler error_handlers].
    rewrite !existsb_app, !rev_app_distr, Hreg. cbn. cbn in Hnone.
    rewrite Hnone.
    repeat split; try discriminate; auto.
    + intros ->. discriminate Ef.
    + intros ->. discriminate Ef.
Qed.

(** C8 at a fresh application in production and in development. *)
Lemma catch_all_only_in_production_sample :
  (exists app',
     configure_error_handlers (app_with_config (sample_yml (PyBool false))) =
     (Ret tt, app') /\
     registered ExceptionClass app' = true) /\
  (exists app',
     configure_error_handlers (app_with_config (sample_yml (PyBool true))) =
     (Ret tt, app') /\
     registered ExceptionClass app' = false /\
     handler_for ExceptionClass app' = None).
Proof.
  split.
  - destruct (catch_all_only_in_production
                (app_with_config (sample_yml (PyBool false))) (PyBool false)
                eq_refl eq_refl) as (app' & Hrun & [_ Hreg] & _).
    exists app'. split; [exact Hrun | exact (Hreg eq_refl)].
  - destruct (catch_all_only_in_production
                (app_with_config (sample_yml (PyBool true))) (PyBool true)
                eq_refl eq_refl) as (app' & Hrun & [Hreg _] & _ & Hnone).
    exists app'. split; [exact Hrun|]. split; [|exact (Hnone eq_refl)].
    destruct (registered ExceptionClass app'); [|reflexivity].
    discriminate (Hreg eq_refl).
Defined.

(** ** The order of the configurators *)

Ltac run_configurator :=
  unfold bind, enter, modify, get, lift, ret, raise;
  cbn [fst snd calls settings config];
  repeat (match goal with
          | |- context [match ?x with Ok _ => _ | Err _ => _ end] =>
              destruct x
          | |- context [if ?b then _ else _] => destruct b
          end;
          cbn [fst snd calls settings config]);
  try reflexivity.

(** The loops that register blueprints, connect receivers and add
    functions run before a request change their own list only. *)
Lemma register_all_explicit (bps : list string) (a : App) :
  register_all bps a =
  (Ret tt,
   mkApp (import_name a) (settings a) (config a) (debug a)
         (logger_handlers a) (db a) (before_request_funcs a)
         (blueprints a ++ bps) (mail a) (identity_loaded_receivers a)
         (user_loader a) (error_handlers a) (uploaded_photos a) (calls a)).
Proof.
  revert a. induction bps as [|b rest IH]; intros a.
  - destruct a. cbn. unfold ret. now rewrite app_nil_r.
  - cbn [register_all]. unfold bind, modify at 1. rewrite IH.
    cbn. now rewrite <- app_assoc.
Qed.

Lemma connect_all_explicit (fs : list string) (a : App) :
  connect_all fs a =
  (Ret tt,
   mkApp (import_name a) (settings a) (config a) (debug a)
         (logger_handlers a) (db a) (before_request_funcs a)
         (blueprints a) (mail a) (identity_loaded_receivers a ++ fs)
         (user_loader a) (error_handlers a) (uploaded_photos a) (calls a)).
Proof.
  revert a. induction fs as [|f rest IH]; intros a.
  - destruct a. cbn. unfold ret. now rewrite app_nil_r.
  - cbn [connect_all]. unfold bind, modify at 1. rewrite IH.
    cbn. now rewrite <- app_assoc.
Qed.

Lemma before_request_all_explicit (fs : list string) (a : App) :
  before_request_all fs a =
  (Ret tt,
   mkApp (import_name a) (settings a) (config a) (debug a)
         (logger_handlers a) (db a) (before_request_funcs a ++ fs)
         (blueprints a) (mail a) (identity_loaded_receivers a)
         (user_loader a) (error_handlers a) (uploaded_photos a) (calls a)).
Proof.
  revert a. induction fs as [|f rest IH]; intros a.
  - destruct a. cbn. unfold ret. now rewrite app_nil_r.
  - cbn [before_request_all]. unfold bind, modify at 1. rewrite IH.
    cbn. now rewrite <- app_assoc.
Qed.

Section CallOrder.

Variable logging_attr : string -> option pyval.
Variable open_file : pyval -> result string.
Variable security : Extension.
Variable configure_uploads : pyval -> result (list string).
Variable config_yml : pyval.
Variable from_yaml : pyval -> pyval.
Variable assemble_key : pyval -> pyval -> result pyval.

Lemma configure_app_calls (a : App) :
  calls (snd (configure_app config_yml from_yaml a)) =
  (calls a ++ ["configure_app"])%list.
Proof. reflexivity. Qed.

Lemma configure_logging_calls (a : App) :
  calls (snd (configure_logging logging_attr open_file a)) =
  (calls a ++ ["configure_logging"])%list.
Proof. unfold configure_logging. run_configurator. Qed.

Lemma configure_database_calls (a : App) :
  calls (snd (configure_database a)) =
  (calls a ++ ["configure_database"])%list.
Proof. reflexivity. Qed.

Lemma configure_hook_calls (a : App) :
  calls (snd (configure_hook a)) = (calls a ++ ["configure_hook"])%list.
Proof. reflexivity. Qed.

Lemma register_all_run (bps : list string) (a : App) :
  exists a', register_all bps a = (Ret tt, a') /\ calls a' = calls a /\
             blueprints a' = (blueprints a ++ bps)%list.
Proof.
  revert a. induction bps as [|b rest IH]; intros a.
  - exists a. cbn. unfold ret. rewrite app_nil_r. auto.
  - destruct (IH (register_blueprint b a)) as (a' & Hrun & Hc & Hb).
    exists a'. cbn [register_all]. unfold bind, modify at 1.
    rewrite Hrun. split; [reflexivity|]. split; [exact Hc|].
    rewrite Hb. cbn [register_blueprint blueprints].
    now rewrite <- app_assoc.
Qed.

Lemma configure_blueprints_calls (bps : list string) (a : App) :
  calls (snd (configure_blueprints bps a)) =
  (calls a ++ ["configure_blueprints"])%list.
Proof.
  unfold configure_blueprints, bind, enter, modify.
  match goal with
  | |- context [register_all bps ?s] =>
      destruct (register_all_run bps s) as (a' & -> & Hc & _)
  end.
  exact Hc.
Qed.

Lemma configure_mail_calls (a : App) :
  calls (snd (configure_mail a)) = (calls a ++ ["configure_mail"])%list.
Proof. reflexivity. Qed.

Lemma configure_security_calls (a : App) :
  calls (snd (configure_security security a)) =
  (calls a ++ ["configure_security"])%list.
Proof.
  unfold configure_security, Security, bind, enter, modify, get, lift.
  cbn [config fst snd].
  destruct (setdefaults "SECURITY_" (ext_defaults security) (config a));
    [|reflexivity].
  unfold ret at 1. cbv beta iota.
  rewrite register_all_explicit, connect_all_explicit,
    before_request_all_explicit.
  reflexivity.
Qed.

Lemma configure_error_handlers_calls (a : App) :
  calls (snd (configure_error_handlers a)) =
  (calls a ++ ["configure_error_handlers"])%list.
Proof. unfold configure_error_handlers. run_configurator. Qed.

Lemma configure_media_uploads_calls (a : App) :
  calls (snd (configure_media_uploads configure_uploads a)) =
  (calls a ++ ["configure_media_uploads"])%list.
Proof.
  unfold configure_media_uploads, bind, enter, modify, get, lift.
  cbn [config fst snd].
  destruct (configure_uploads (config a)); [|reflexivity].
  unfold ret at 1. cbv beta iota.
  rewrite register_all_explicit. reflexivity.
Qed.

Lemma configure_encryption_calls (a : App) :
  calls (snd (configure_encryption assemble_key a)) =
  (calls a ++ ["configure_encryption"])%list.
Proof. unfold configure_encryption. run_configurator. Qed.

(** A configurator that returned has added its name to the calls. *)
Lemma returned_calls (c : M App unit) (n : string) (a a' : App) (u : unit) :
  (forall a0, calls (snd (c a0)) = (calls a0 ++ [n])%list) ->
  c a = (Ret u, a') -> calls a' = (calls a ++ [n])%list.
Proof. intros Hc Hrun. specialize (Hc a). now rewrite Hrun in Hc. Qed.

(** C5, as amended: when [create_app] returns, the configurators were
    called in the order of the source: config loader, logging, database,
    request hook, blueprints, mail, security, error handlers, uploads, and
    encryption last. *)
Theorem create_app_call_order (app_name : option string)
    (bps : option (list string)) (app : App) :
  create_app logging_attr open_file security configure_uploads
             config_yml from_yaml assemble_key
             app_name bps = (Ret tt, app) ->
  calls app = call_order.
Proof.
  unfold create_app, create_app_body. intros H.
  apply bind_Ret in H as (u1 & a1 & H1 & H).
  apply bind_Ret in H as (u2 & a2 & H2 & H).
  apply bind_Ret in H as (u3 & a3 & H3 & H).
  apply bind_Ret in H as (u4 & a4 & H4 & H).
  apply bind_Ret in H as (u5 & a5 & H5 & H).
  apply bind_Ret in H as (u6 & a6 & H6 & H).
  apply bind_Ret in H as (u7 & a7 & H7 & H).
  apply bind_Ret in H as (u8 & a8 & H8 & H).
  apply bind_Ret in H as (u9 & a9 & H9 & H).
  apply bind_Ret in H as (u10 & a10 & H10 & H).
  apply (returned_calls _ _ _ _ _ configure_app_calls) in H1.
  apply (returned_calls _ _ _ _ _ configure_logging_calls) in H2.
  apply (returned_calls _ _ _ _ _ configure_database_calls) in H3.
  apply (returned_calls _ _ _ _ _ configure_hook_calls) in H4.
  apply (returned_calls _ _ _ _ _ (configure_blueprints_calls _)) in H5.
  apply (returned_calls _ _ _ _ _ configure_mail_calls) in H6.
  apply (returned_calls _ _ _ _ _ configure_security_calls) in H7.
  apply (returned_calls _ _ _ _ _ configure_error_handlers_calls) in H8.
  apply (returned_calls _ _ _ _ _ configure_media_uploads_calls) in H9.
  apply (returned_calls _ _ _ _ _ configure_encryption_calls) in H10.
  assert (Hlast : calls app = calls a10).
  { revert H. unfold bind, get, lift, modify, ret, raise.
    destruct (subscript (config a10) "DEBUG") as [dbg|e];
      [destruct (eq_True dbg)|]; intros H; inversion H; reflexivity. }
  rewrite Hlast, H10, H9, H8, H7, H6, H5, H4, H3, H2, H1. reflexivity.
Qed.

End CallOrder.

(** C5 at the sample configuration: [create_app] returns and the calls are
    in the order of the source. *)
Lemma create_app_call_order_sample :
  sample_create_app (PyBool false) =
    (Ret tt, snd (sample_create_app (PyBool false))) /\
  calls (snd (sample_create_app (PyBool false))) = call_order.
Proof.
  unfold sample_create_app.
  assert (E : create_app level_names open_in_logs sample_security
                sample_configure_uploads (sample_yml (PyBool false))
                sample_from_yaml sample_assemble_key None None =
              (Ret tt,
               snd (create_app level_names open_in_logs sample_security
                      sample_configure_uploads (sample_yml (PyBool false))
                      sample_from_yaml sample_assemble_key None None))).
  { vm_compute. reflexivity. }
  split.
  - exact E.
  - exact (create_app_call_order level_names open_in_logs sample_security
             sample_configure_uploads (sample_yml (PyBool false))
             sample_from_yaml sample_assemble_key None None _ E).
Defined.

(** C5 as stated fails: at a configuration that names no destination for
    the uploads, [create_app] raises in the upload configurator, the ninth
    call, after the error-handler configurator was called eighth and has
    registered its handlers; the calls made are not an initial part of the
    order of the overview, which has the error-handler configurator last. *)
Lemma create_app_call_order_counterexample :
  let run := create_app level_names open_in_logs sample_security
               sample_configure_uploads sample_yml_no_uploads
               sample_from_yaml sample_assemble_key None None in
  fst run = Raise (RuntimeError "no destination for set photos") /\
  calls (snd run) =
    [ "configure_app"; "configure_logging"; "configure_database";
      "configure_hook"; "configure_blueprints"; "configure_mail";
      "configure_security"; "configure_error_handlers";
      "configure_media_uploads" ] /\
  nth_error (calls (snd run)) 7 = Some "configure_error_handlers" /\
  nth_error overview_order 7 = Some "configure_media_uploads" /\
  handler_for (Status 404) (snd run) = Some not_found /\
  uploaded_photos (snd run) = None /\
  calls (snd run) <> firstn 9 overview_order.
Proof.
  cbv zeta.
  split; [vm_compute; reflexivity|].
  split; [vm_compute; reflexivity|].
  split; [vm_compute; reflexivity|].
  split; [vm_compute; reflexivity|].
  split; [vm_compute; reflexivity|].
  split; [vm_compute; reflexivity|].
  vm_compute. discriminate.
Qed.

(** ** Logging: level, formatter and failures *)

Section LoggingLevel.

Variable logging_attr : string -> option pyval.
Variable open_file : pyval -> result string.

(** The handler built from a [LOGGING] mapping with its four keys. *)
Lemma logging_handler_value (d lg : list (string * pyval))
    (dbg size_mb lev nm rot v : pyval) (path : string) :
  assoc "DEBUG" d = Some dbg ->
  assoc "LOGGING" d = Some (PyDict lg) ->
  assoc "SIZE_MB" lg = Some size_mb ->
  assoc "LEVEL" lg = Some lev ->
  assoc "NAME" lg = Some nm ->
  assoc "ROTATIONS" lg = Some rot ->
  (truthy size_mb = true -> exists n, py_int size_mb = Ok n) ->
  rbind (if truthy lev then logging_getattribute logging_attr lev
         else Ok (if truthy dbg then logging_DEBUG else logging_INFO))
        checkLevel = Ok v ->
  open_file nm = Ok path ->
  logging_handler logging_attr open_file (PyDict d) =
  Ok (mkHandler path (25 * megabyte) (if truthy rot then rot else PyInt 10)
                v log_format).
Proof.
  intros Hdbg Hlg Hsz Hlev Hnm Hrot Hint Hv Hopen.
  assert (Ht : truthy (PyDict lg) = true).
  { destruct lg; [discriminate | reflexivity]. }
  unfold logging_handler, logging_block, RotatingFileHandler, subscript.
  rewrite Hdbg, Hlg. cbn [rbind]. rewrite Ht.
  rewrite Hsz, Hlev, Hnm, Hrot. cbn [rbind].
  assert (Hsize : exists n,
    (if truthy size_mb
     then rbind (py_int size_mb) (fun n => Ok (n * megabyte))
     else Ok (25 * megabyte)) = Ok n).
  { destruct (truthy size_mb); [|eauto].
    destruct Hint as [n ->]; [reflexivity|]. simpl. eauto. }
  destruct Hsize as [n Hn]. cbn [logsize]. rewrite Hn. cbn [rbind].
  apply rbind_Ok in Hv as (v0 & Hv0 & Hchk).
  cbn [lvl]. rewrite Hv0. cbn [rbind]. unfold setLevel.
  destruct (truthy nm); cbn [rbind];
    destruct (truthy rot); cbn [rbind rotations lvl]; rewrite Hopen;
    cbn [rbind]; rewrite Hchk; reflexivity.
Qed.

(** X1: the level of the attached handler is what [setLevel] makes of the
    attribute of [logging] that [LOGGING.LEVEL] names, when the value is
    true in a condition and the attribute is a level; otherwise it is
    [DEBUG] or [INFO] by the truth of the [DEBUG] setting.  The formatter is
    always the fixed line format. *)
Theorem configure_logging_level (app : App)
    (d lg : list (string * pyval)) (dbg size_mb lev nm rot v : pyval)
    (path : string) :
  settings app = PyDict d ->
  assoc "DEBUG" d = Some dbg ->
  assoc "LOGGING" d = Some (PyDict lg) ->
  assoc "SIZE_MB" lg = Some size_mb ->
  assoc "LEVEL" lg = Some lev ->
  assoc "NAME" lg = Some nm ->
  assoc "ROTATIONS" lg = Some rot ->
  (truthy size_mb = true -> exists n, py_int size_mb = Ok n) ->
  rbind (if truthy lev then logging_getattribute logging_attr lev
         else Ok (if truthy dbg then logging_DEBUG else logging_INFO))
        checkLevel = Ok v ->
  open_file nm = Ok path ->
  exists h app',
    configure_logging logging_attr open_file app = (Ret tt, app') /\
    logger_handlers app' = (logger_handlers app ++ [h])%list /\
    level h = v /\
    formatter h = log_format /\
    baseFilename h = path.
Proof.
  intros Hs Hdbg Hlg Hsz Hlev Hnm Hrot Hint Hv Hopen.
  pose proof (logging_handler_value d lg dbg size_mb lev nm rot v path
                Hdbg Hlg Hsz Hlev Hnm Hrot Hint Hv Hopen) as Hh.
  destruct (configure_logging_run logging_attr open_file app)
    as (app0 & _ & Hhs & Hrun).
  rewrite Hs, Hh in Hrun.
  eexists. exists (addHandler
    (mkHandler path (25 * megabyte) (if truthy rot then rot else PyInt 10)
               v log_format) app0).
  split; [exact Hrun|]. split.
  - simpl. now rewrite Hhs.
  - repeat split.
Qed.

(** X2: a [LOGGING] setting that is present but false in a condition
    (null, an empty mapping, zero, empty text) never yields a handler: the
    defaults are computed, and then reading [LOGGING.NAME] for the
    constructor raises. *)
Theorem configure_logging_empty_section (app : App)
    (d : list (string * pyval)) (dbg lg : pyval) :
  settings app = PyDict d ->
  assoc "DEBUG" d = Some dbg ->
  assoc "LOGGING" d = Some lg ->
  truthy lg = false ->
  exists app',
    configure_logging logging_attr open_file app =
    (Raise match lg with
           | PyDict _ => KeyError "NAME"
           | _ => TypeError
           end, app') /\
    logger_handlers app' = logger_handlers app.
Proof.
  intros Hs Hdbg Hlg Ht.
  destruct (configure_logging_run logging_attr open_file app)
    as (app0 & _ & Hhs & Hrun).
  exists app0. split; [|exact Hhs].
  rewrite Hrun, Hs. unfold logging_handler, subscript.
  rewrite Hdbg, Hlg. cbn [rbind]. rewrite Ht.
  destruct lg as [| | | | | |[|p l]]; try reflexivity.
  discriminate Ht.
Qed.


(** X4: a [LOGGING.LEVEL] value that is true in a condition and names no
    attribute of [logging] makes [configure_logging] raise
    [AttributeError] for that name; a level that is not text raises
    [TypeError].  In both cases no handler is attached. *)
Theorem configure_logging_bad_level (app : App)
    (d lg : list (string * pyval)) (dbg size_mb lev : pyval) (e : exn) :
  settings app = PyDict d ->
  assoc "DEBUG" d = Some dbg ->
  assoc "LOGGING" d = Some (PyDict lg) ->
  assoc "SIZE_MB" lg = Some size_mb ->
  assoc "LEVEL" lg = Some lev ->
  (truthy size_mb = true -> exists n, py_int size_mb = Ok n) ->
  truthy lev = true ->
  logging_getattribute logging_attr lev = Err e ->
  exists app',
    configure_logging logging_attr open_file app = (Raise e, app') /\
    logger_handlers app' = logger_handlers app /\
    e = match lev with
        | PyStr s => AttributeError s
        | _ => TypeError
        end.
Proof.
  intros Hs Hdbg Hlg Hsz Hlev Hint Ht He.
  destruct (configure_logging_run logging_attr open_file app)
    as (app0 & _ & Hhs & Hrun).
  exists app0. split; [|split; [exact Hhs|]].
  - rewrite Hrun, Hs. unfold logging_handler, logging_block, subscript.
    assert (Hl : truthy (PyDict lg) = true).
    { destruct lg; [discriminate | reflexivity]. }
    rewrite Hdbg, Hlg. cbn [rbind]. rewrite Hl, Hsz, Hlev. cbn [rbind].
    destruct (truthy size_mb).
    + destruct Hint as [n ->]; [reflexivity|]. cbn [rbind].
      rewrite Ht, He. reflexivity.
    + cbn [rbind]. rewrite Ht, He. reflexivity.
  - unfold logging_getattribute in He.
    destruct lev; try (injection He as <-; reflexivity).
    destruct (logging_attr s); [discriminate|].
    injection He as <-. reflexivity.
Qed.

End LoggingLevel.

(** X1 at [LEVEL: ERROR] with [DEBUG] on: the level is 40. *)
Lemma configure_logging_level_error :
  let app := app_with_settings
    (PyDict [("DEBUG", PyBool true);
             ("LOGGING", logging_section PyNone (PyStr "ERROR")
                                         (PyStr "cbu.log") PyNone)]) in
  exists h app',
    configure_logging level_names open_in_logs app = (Ret tt, app') /\
    logger_handlers app' = (logger_handlers app ++ [h])%list /\
    level h = PyInt 40 /\
    formatter h = log_format /\
    baseFilename h = "/var/log/cbu/cbu.log".
Proof.
  intros app.
  refine (configure_logging_level level_names open_in_logs app
            _ _ (PyBool true) PyNone (PyStr "ERROR") (PyStr "cbu.log") PyNone
            (PyInt 40) "/var/log/cbu/cbu.log"
            eq_refl eq_refl eq_refl eq_refl eq_refl eq_refl eq_refl _
            eq_refl eq_refl).
  intros H. discriminate H.
Defined.

(** X2 at [LOGGING:] left empty in the file. *)
Lemma configure_logging_empty_section_null :
  let app := app_with_settings
    (PyDict [("DEBUG", PyBool false); ("LOGGING", PyNone)]) in
  exists app',
    configure_logging level_names open_in_logs app = (Raise TypeError, app')
    /\ logger_handlers app' = logger_handlers app.
Proof.
  intros app.
  exact (configure_logging_empty_section level_names open_in_logs app
           _ (PyBool false) PyNone eq_refl eq_refl eq_refl eq_refl).
Defined.


(** X4 at [LEVEL: VERBOSE]. *)
Lemma configure_logging_bad_level_verbose :
  let app := app_with_settings
    (sample_settings (logging_section (PyInt 10) (PyStr "VERBOSE")
                                      (PyStr "cbu.log") (PyInt 5))) in
  exists app',
    configure_logging level_names open_in_logs app =
    (Raise (AttributeError "VERBOSE"), app') /\
    logger_handlers app' = logger_handlers app /\
    AttributeError "VERBOSE" = AttributeError "VERBOSE".
Proof.
  intros app.
  refine (configure_logging_bad_level level_names open_in_logs app
            _ _ (PyBool false) (PyInt 10) (PyStr "VERBOSE")
            (AttributeError "VERBOSE")
            eq_refl eq_refl eq_refl eq_refl eq_refl _ eq_refl eq_refl).
  intros _. exists 10. reflexivity.
Defined.

(** A [LEVEL] that names an attribute of [logging] which is not a level is
    refused by [setLevel]: [configure_logging] raises and attaches no
    handler. *)
Example configure_logging_non_level_attribute :
  let app := app_with_settings
    (sample_settings (logging_section (PyInt 10) (PyStr "BASIC_FORMAT")
                                      (PyStr "cbu.log") (PyInt 5))) in
  fst (configure_logging level_names open_in_logs app) = Raise ValueError /\
  logger_handlers (snd (configure_logging level_names open_in_logs app)) =
    [].
Proof. split; reflexivity. Qed.

(** ** Identity loading: the paths of the handler *)

Lemma need_eqb_eq (a b : Need) : need_eqb a b = true -> a = b.
Proof.
  destruct a, b; simpl; intros H; try discriminate.
  - apply String.eqb_eq in H. now subst.
  - apply String.eqb_eq in H. now subst.
  - apply andb_true_iff in H as [H1 H2].
    apply String.eqb_eq in H1. apply String.eqb_eq in H2. now subst.
Qed.

Lemma set_add_new (n : Need) (s : list Need) : In n (set_add n s).
Proof.
  unfold set_add. destruct (existsb (need_eqb n) s) eqn:E.
  - apply existsb_exists in E as (y & Hy & Heq).
    apply need_eqb_eq in Heq. now subst.
  - apply in_or_app. right. now left.
Qed.

Lemma set_add_old (n x : Need) (s : list Need) :
  In x s -> In x (set_add n s).
Proof.
  unfold set_add. destruct (existsb (need_eqb n) s); intros H; auto.
  apply in_or_app. now left.
Qed.

(** The loop over the roles: it returns, keeps the needs there were, adds
    the need of every role, and adds nothing else. *)
Lemma add_role_needs_spec (roles : list Role) (rq : Request) :
  exists rq',
    add_role_needs roles rq = (Ret tt, rq') /\
    g_user rq' = g_user rq /\
    identity_name rq' = identity_name rq /\
    identity_user rq' = identity_user rq /\
    logged rq' = logged rq /\
    (forall x, In x (identity_provides rq) -> In x (identity_provides rq')) /\
    (forall r, In r roles ->
               In (RoleNeed (role_name r)) (identity_provides rq')) /\
    (forall x, In x (identity_provides rq') ->
               In x (identity_provides rq) \/
               exists r, In r roles /\ x = RoleNeed (role_name r)).
Proof.
  revert rq. induction roles as [|role rest IH]; intros rq.
  - exists rq. simpl. unfold ret. repeat split; auto. intros r [].
  - destruct (IH (provide (RoleNeed (role_name role)) rq))
      as (rq' & Hrun & Hg & Hn & Hu & Hl & Hold & Hnew & Honly).
    exists rq'. cbn [add_role_needs]. unfold bind, modify at 1.
    rewrite Hrun. repeat split; auto.
    + intros x Hx. apply Hold. cbn [provide identity_provides].
      now apply set_add_old.
    + intros r [<-|Hr].
      * apply Hold. cbn [provide identity_provides]. apply set_add_new.
      * now apply Hnew.
    + intros x Hx. apply Honly in Hx as [Hx|(r & Hr & ->)].
      * cbn [provide identity_provides] in Hx.
        apply set_add_In in Hx as [->|Hx]; [right|now left].
        exists role. split; [now left | reflexivity].
      * right. exists r. split; [now right | reflexivity].
Qed.

(** The loop over the posts returns on the empty list only. *)
Lemma add_post_needs_run (posts : list Post) (rq : Request) :
  add_post_needs posts rq =
  match posts with
  | [] => (Ret tt, rq)
  | _ :: _ => (Raise (NameError "EditBlogPostNeed"), rq)
  end.
Proof. destruct posts; reflexivity. Qed.

Lemma count_two (u1 u2 : User) (l : list User) :
  (count (u1 :: u2 :: l) >? 1) = true.
Proof.
  apply count_gt_1. unfold count. cbn [List.length].
  rewrite !Nat2Z.inj_succ. lia.
Qed.

Lemma on_identity_loaded_none (users : list User) (rq : Request) :
  identity_name rq = PyNone ->
  on_identity_loaded users rq = (Ret tt, set_g_user GNone rq).
Proof.
  intros En. unfold on_identity_loaded, bind, modify, get.
  cbn [identity_name set_g_user]. rewrite En. reflexivity.
Qed.

Lemma on_identity_loaded_empty (users : list User) (rq : Request) :
  lookup_user users (identity_name rq) = Some [] ->
  on_identity_loaded users rq = (Ret tt, set_g_user GNone rq).
Proof.
  intros Hq. unfold on_identity_loaded, bind, modify, get.
  cbn [identity_name set_g_user].
  destruct (identity_name rq) eqn:En; try discriminate Hq;
    rewrite Hq; reflexivity.
Qed.

Lemma on_identity_loaded_many (users : list User) (u1 u2 : User)
    (l : list User) (rq : Request) :
  lookup_user users (identity_name rq) = Some (u1 :: u2 :: l) ->
  on_identity_loaded users rq =
  (Raise (Exception_ login_error),
   emit (LogError (Interp "Got more than one match for user login %s"
                          (identity_name rq)))
        (set_g_user GNone rq)).
Proof.
  intros Hq. unfold on_identity_loaded, bind, modify, get.
  cbn [identity_name set_g_user].
  destruct (identity_name rq) eqn:En; try discriminate Hq;
    rewrite Hq, count_two; reflexivity.
Qed.

(** The path of a single match: the id need and the role needs are added,
    then the posts decide between loading the user and [NameError]. *)
Lemma on_identity_loaded_single_run (users : list User) (u : User)
    (rq : Request) :
  lookup_user users (identity_name rq) = Some [u] ->
  exists rq2,
    on_identity_loaded users rq =
    match user_posts u with
    | Some (_ :: _) => (Raise (NameError "EditBlogPostNeed"), rq2)
    | _ => (Ret tt, set_g_user (GUser u) (set_identity_user (Some u) rq2))
    end /\
    g_user rq2 = GNone /\
    identity_name rq2 = identity_name rq /\
    identity_user rq2 = identity_user rq /\
    logged rq2 = logged rq /\
    (forall x, In x (identity_provides rq) -> In x (identity_provides rq2)) /\
    (forall i, user_id u = Some i -> In (UserNeed i) (identity_provides rq2))
    /\
    (forall roles r, user_roles u = Some roles -> In r roles ->
                     In (RoleNeed (role_name r)) (identity_provides rq2)) /\
    (forall x, In x (identity_provides rq2) ->
       In x (identity_provides rq) \/
       (exists i, user_id u = Some i /\ x = UserNeed i) \/
       (exists roles r, user_roles u = Some roles /\ In r roles /\
                        x = RoleNeed (role_name r))).
Proof.
  intros Hq.
  destruct u as [uid email uroles uposts].
  cbn [user_posts user_id user_roles].
  set (rq1 := match uid with
              | Some i => provide (UserNeed i) (set_g_user GNone rq)
              | None => set_g_user GNone rq
              end).
  assert (H1 : g_user rq1 = GNone /\ identity_name rq1 = identity_name rq /\
               identity_user rq1 = identity_user rq /\
               logged rq1 = logged rq /\
               (forall x, In x (identity_provides rq) ->
                          In x (identity_provides rq1)) /\
               (forall i, uid = Some i ->
                          In (UserNeed i) (identity_provides rq1)) /\
               (forall x, In x (identity_provides rq1) ->
                  In x (identity_provides rq) \/
                  exists i, uid = Some i /\ x = UserNeed i)).
  { subst rq1. destruct uid as [i|]; cbn; repeat split; auto.
    - intros x Hx. now apply set_add_old.
    - intros j Hj. injection Hj as <-. apply set_add_new.
    - intros x Hx. apply set_add_In in Hx as [->|Hx]; eauto.
    - intros j Hj. discriminate Hj. }
  destruct H1 as (Hg1 & Hn1 & Hu1 & Hl1 & Hold1 & Hnew1 & Honly1).
  assert (H2 : exists rq2,
    match uroles with
    | Some roles => add_role_needs roles
    | None => ret tt
    end rq1 = (Ret tt, rq2) /\
    g_user rq2 = GNone /\ identity_name rq2 = identity_name rq /\
    identity_user rq2 = identity_user rq /\ logged rq2 = logged rq /\
    (forall x, In x (identity_provides rq1) -> In x (identity_provides rq2))
    /\
    (forall roles r, uroles = Some roles -> In r roles ->
                     In (RoleNeed (role_name r)) (identity_provides rq2)) /\
    (forall x, In x (identity_provides rq2) ->
       In x (identity_provides rq1) \/
       exists roles r, uroles = Some roles /\ In r roles /\
                       x = RoleNeed (role_name r))).
  { destruct uroles as [roles|].
    - destruct (add_role_needs_spec roles rq1)
        as (rq2 & Hrun & Hg & Hn & Hu & Hl & Hold & Hnew & Honly).
      exists rq2. repeat split; try congruence; auto.
      + intros roles' r Hr. injection Hr as <-. apply Hnew.
      + intros x Hx. apply Honly in Hx as [Hx|(r & Hr & ->)]; eauto 6.
    - exists rq1. unfold ret. repeat split; auto.
      intros roles r Hr. discriminate Hr. }
  destruct H2 as (rq2 & Hrun2 & Hg2 & Hn2 & Hu2 & Hl2 & Hold2 & Hnew2
                  & Honly2).
  exists rq2. split; [|repeat split; auto].
  - unfold on_identity_loaded, bind at 1 2, modify at 1, get.
    cbn [identity_name set_g_user].
    assert (Htail :
      (let user := first [mkUser uid email uroles uposts] in
       match user with
       | Some {| user_id := Some i |} => modify (provide (UserNeed i))
       | _ => ret tt
       end ;;
       match user with
       | Some {| user_roles := Some roles |} => add_role_needs roles
       | _ => ret tt
       end ;;
       match user with
       | Some {| user_posts := Some posts |} => add_post_needs posts
       | _ => ret tt
       end ;;
       modify (set_identity_user user) ;;
       modify (set_g_user match user with
                          | Some u => GUser u
                          | None => GNone
                          end)) (set_g_user GNone rq)
      = match uposts with
        | Some (_ :: _) => (Raise (NameError "EditBlogPostNeed"), rq2)
        | _ => (Ret tt,
                set_g_user (GUser (mkUser uid email uroles uposts))
                  (set_identity_user
                     (Some (mkUser uid email uroles uposts)) rq2))
        end).
    { cbn [first hd_error]. unfold bind.
      destruct uid; [unfold modify at 1 | unfold ret at 1; cbv beta iota];
        fold rq1; rewrite Hrun2;
        (destruct uposts as [[|p ps]|];
         [ rewrite add_post_needs_run; reflexivity
         | rewrite add_post_needs_run; reflexivity
         | reflexivity ]). }
    destruct (identity_name rq) eqn:En; try discriminate Hq;
      rewrite Hq; cbn [count List.length Z.of_nat Z.gtb Z.eqb Z.compare
                       Pos.compare Pos.compare_cont Pos.of_succ_nat];
      exact Htail.
  - intros x Hx. apply Honly2 in Hx as [Hx|Hx]; [|now right; right].
    apply Honly1 in Hx as [Hx|Hx]; [now left | now right; left].
Qed.

Lemma on_identity_loaded_unbound (users : list User) (rq : Request) :
  identity_name rq <> PyNone ->
  lookup_user users (identity_name rq) = None ->
  on_identity_loaded users rq =
  (Raise (UnboundLocalError "user"), set_g_user GNone rq).
Proof.
  intros Hn Hq. unfold on_identity_loaded, bind, modify, get.
  cbn [identity_name set_g_user].
  destruct (identity_name rq) eqn:En; try discriminate Hq;
    try reflexivity.
  contradiction.
Qed.

(** Every run of the handler takes one of four paths. *)
Lemma on_identity_loaded_outcomes (users : list User) (rq : Request) :
  on_identity_loaded users rq = (Ret tt, set_g_user GNone rq) \/
  on_identity_loaded users rq =
    (Raise (UnboundLocalError "user"), set_g_user GNone rq) \/
  on_identity_loaded users rq =
    (Raise (Exception_ login_error),
     emit (LogError (Interp "Got more than one match for user login %s"
                            (identity_name rq)))
          (set_g_user GNone rq)) \/
  exists u, lookup_user users (identity_name rq) = Some [u].
Proof.
  destruct (lookup_user users (identity_name rq)) as [[|u1 [|u2 l]]|] eqn:Hq.
  - left. now apply on_identity_loaded_empty.
  - right. right. right. now exists u1.
  - right. right. left. now apply (on_identity_loaded_many users u1 u2 l).
  - destruct (identity_name rq) eqn:En.
    + left. now apply on_identity_loaded_none.
    + right. left. apply on_identity_loaded_unbound; [congruence|].
      now rewrite En.
    + right. left. apply on_identity_loaded_unbound; [congruence|].
      now rewrite En.
    + discriminate Hq.
    + discriminate Hq.
    + right. left. apply on_identity_loaded_unbound; [congruence|].
      now rewrite En.
    + right. left. apply on_identity_loaded_unbound; [congruence|].
      now rewrite En.
Qed.

(** X5: a single matching user whose posts are missing or empty is loaded:
    the handler returns, [g.user] and [identity.user] are the user, nothing
    is logged, and the needs of the identity are those it had, the need of
    the user's id and the need of each of the user's roles, and no other. *)
Theorem on_identity_loaded_loads_user (users : list User) (u : User)
    (rq : Request) :
  lookup_user users (identity_name rq) = Some [u] ->
  user_posts u = None \/ user_posts u = Some [] ->
  exists rq',
    on_identity_loaded users rq = (Ret tt, rq') /\
    g_user rq' = GUser u /\
    identity_user rq' = Some u /\
    logged rq' = logged rq /\
    (forall x, In x (identity_provides rq) -> In x (identity_provides rq')) /\
    (forall i, user_id u = Some i -> In (UserNeed i) (identity_provides rq'))
    /\
    (forall roles r, user_roles u = Some roles -> In r roles ->
                     In (RoleNeed (role_name r)) (identity_provides rq')) /\
    (forall x, In x (identity_provides rq') ->
       In x (identity_provides rq) \/
       (exists i, user_id u = Some i /\ x = UserNeed i) \/
       (exists roles r, user_roles u = Some roles /\ In r roles /\
                        x = RoleNeed (role_name r))).
Proof.
  intros Hq Hposts.
  destruct (on_identity_loaded_single_run users u rq Hq)
    as (rq2 & Hrun & Hg & Hn & Hu & Hl & Hold & Hid & Hroles & Honly).
  exists (set_g_user (GUser u) (set_identity_user (Some u) rq2)).
  split.
  - rewrite Hrun. destruct Hposts as [->| ->]; reflexivity.
  - cbn [g_user identity_user logged identity_provides set_g_user
         set_identity_user].
    repeat split; auto.
Qed.

(** X6: whenever the handler raises, for whatever reason, [g.user] is
    [None] and [identity.user] is what it was: a failed identity load never
    leaves a user in the request. *)
Theorem on_identity_loaded_raise_clears_user (users : list User)
    (rq rq' : Request) (e : exn) :
  on_identity_loaded users rq = (Raise e, rq') ->
  g_user rq' = GNone /\
  identity_user rq' = identity_user rq /\
  identity_name rq' = identity_name rq.
Proof.
  intros H.
  destruct (on_identity_loaded_outcomes users rq) as [E|[E|[E|[u Hq]]]].
  - rewrite E in H. discriminate H.
  - rewrite E in H. injection H as _ <-. repeat split.
  - rewrite E in H. injection H as _ <-. repeat split.
  - destruct (on_identity_loaded_single_run users u rq Hq)
      as (rq2 & Hrun & Hg & Hn & Hu & _).
    rewrite Hrun in H.
    destruct (user_posts u) as [[|p ps]|]; try discriminate H.
    injection H as _ <-. auto.
Qed.

(** X7: when the handler returns with a user in [g.user], that user is a
    stored user, the only one that the identity's name matches (by id for
    an object id, by e-mail address for text), and [identity.user] is the
    same user. *)
Theorem on_identity_loaded_user_matches (users : list User) (u : User)
    (rq rq' : Request) :
  on_identity_loaded users rq = (Ret tt, rq') ->
  g_user rq' = GUser u ->
  In u users /\
  identity_user rq' = Some u /\
  lookup_user users (identity_name rq) = Some [u] /\
  match identity_name rq with
  | PyOid oid => user_id u = Some oid
  | PyStr email => user_email u = email
  | _ => False
  end.
Proof.
  intros H Hg.
  destruct (on_identity_loaded_outcomes users rq) as [E|[E|[E|[u0 Hq]]]].
  - rewrite E in H. injection H as <-. discriminate Hg.
  - rewrite E in H. discriminate H.
  - rewrite E in H. discriminate H.
  - destruct (on_identity_loaded_single_run users u0 rq Hq)
      as (rq2 & Hrun & _).
    rewrite Hrun in H.
    assert (Hrq : rq' = set_g_user (GUser u0)
                          (set_identity_user (Some u0) rq2)).
    { destruct (user_posts u0) as [[|p ps]|]; try discriminate H;
        injection H as <-; reflexivity. }
    subst rq'. cbn in Hg. injection Hg as <-.
    assert (Hin : In u0 [u0]) by now left.
    unfold lookup_user in Hq.
    destruct (identity_name rq) eqn:En; try discriminate Hq;
      injection Hq as Hq; rewrite <- Hq in Hin;
      apply filter_In in Hin as [Hin Hmatch];
      (split; [exact Hin|]); (split; [reflexivity|]);
      (split; [unfold lookup_user; now rewrite Hq|]).
    + now apply String.eqb_eq in Hmatch.
    + destruct (user_id u0); [|discriminate].
      apply String.eqb_eq in Hmatch. now subst.
Qed.

(** X8: whatever the outcome, the handler removes no need from
    [identity.provides] and keeps the identity's name. *)
Theorem on_identity_loaded_keeps_needs (users : list User)
    (rq rq' : Request) (o : outcome unit) (x : Need) :
  on_identity_loaded users rq = (o, rq') ->
  In x (identity_provides rq) ->
  In x (identity_provides rq') /\ identity_name rq' = identity_name rq.
Proof.
  intros H Hx.
  destruct (on_identity_loaded_outcomes users rq) as [E|[E|[E|[u Hq]]]].
  - rewrite E in H. injection H as _ <-. auto.
  - rewrite E in H. injection H as _ <-. auto.
  - rewrite E in H. injection H as _ <-. auto.
  - destruct (on_identity_loaded_single_run users u rq Hq)
      as (rq2 & Hrun & _ & Hn & _ & _ & Hold & _).
    rewrite Hrun in H.
    destruct (user_posts u) as [[|p ps]|]; injection H as _ <-;
      cbn [identity_provides identity_name set_g_user set_identity_user];
      auto.
Qed.

(** X5 at the sample user without posts. *)
Lemma on_identity_loaded_loads_user_bob :
  exists rq',
    on_identity_loaded sample_users
      (request_of (PyOid "5150a1b2c3d4e5f601020305")) = (Ret tt, rq') /\
    g_user rq' = GUser bob /\
    identity_user rq' = Some bob /\
    In (UserNeed "5150a1b2c3d4e5f601020305") (identity_provides rq') /\
    In (RoleNeed "editor") (identity_provides rq').
Proof.
  destruct (on_identity_loaded_loads_user sample_users bob
              (request_of (PyOid "5150a1b2c3d4e5f601020305"))
              eq_refl (or_intror eq_refl))
    as (rq' & Hrun & Hg & Hu & _ & _ & Hid & Hroles & _).
  exists rq'. repeat split; auto.
  apply (Hroles [mkRole "editor"] (mkRole "editor") eq_refl).
  now left.
Defined.

(** X6 at the shared e-mail address and at the user with a post. *)
Lemma on_identity_loaded_raise_clears_user_sample :
  g_user (snd (on_identity_loaded sample_users
                 (request_of (PyStr "bob@example.org")))) = GNone /\
  g_user (snd (on_identity_loaded sample_users
                 (request_of (PyStr "alice@example.org")))) = GNone.
Proof.
  split.
  - apply (on_identity_loaded_raise_clears_user sample_users
             (request_of (PyStr "bob@example.org")) _
             (Exception_ login_error)).
    reflexivity.
  - apply (on_identity_loaded_raise_clears_user sample_users
             (request_of (PyStr "alice@example.org")) _
             (NameError "EditBlogPostNeed")).
    reflexivity.
Defined.

(** X7 at the sample user without posts. *)
Lemma on_identity_loaded_user_matches_bob :
  In bob sample_users /\
  user_id bob = Some "5150a1b2c3d4e5f601020305".
Proof.
  destruct (on_identity_loaded_user_matches sample_users bob
              (request_of (PyOid "5150a1b2c3d4e5f601020305"))
              (snd (on_identity_loaded sample_users
                      (request_of (PyOid "5150a1b2c3d4e5f601020305"))))
              eq_refl eq_refl) as (Hin & _ & _ & Hid).
  split; [exact Hin | exact Hid].
Defined.

(** X8 at a request that already holds a need. *)
Lemma on_identity_loaded_keeps_needs_sample :
  In (RoleNeed "guest")
     (identity_provides
        (snd (on_identity_loaded sample_users
                (mkRequest GAnonymous (PyStr "alice@example.org")
                           [RoleNeed "guest"] None [])))).
Proof.
  apply (on_identity_loaded_keeps_needs sample_users
           (mkRequest GAnonymous (PyStr "alice@example.org")
                      [RoleNeed "guest"] None [])
           _ (Raise (NameError "EditBlogPostNeed")) (RoleNeed "guest")).
  - reflexivity.
  - now left.
Defined.

(** ** Error handlers: the catch-all and the request hook *)

Lemma annotated_exception :
  logs_annotated internal_exception_handler "Exception occured "
                 "Sorry, there was a server error.".
Proof.
  intros error rq. unfold internal_exception_handler, userStr.
  unfold bind, get. cbv beta iota.
  destruct (g_user rq) as [| |u]; [reflexivity | reflexivity |].
  destruct (user_id u); reflexivity.
Qed.

(** X9: with [DEBUG] [False], the handler that [configure_error_handlers]
    leaves registered for [Exception] logs the message annotated with
    the user id of a user who is not anonymous, logs the exception, and
    renders the same page as the handler for 500. *)
Theorem catch_all_logging (app : App) :
  subscript (config app) "DEBUG" = Ok (PyBool false) ->
  exists h,
    handler_for ExceptionClass (snd (configure_error_handlers app)) = Some h
    /\ logs_annotated h "Exception occured "
                      "Sorry, there was a server error.".
Proof.
  intros Hdbg. exists internal_exception_handler.
  split; [|exact annotated_exception].
  unfold configure_error_handlers, bind, enter, modify, get, lift.
  cbn [snd fst config errorhandler error_handlers].
  rewrite Hdbg. unfold ret, modify, handler_for.
  cbn [is_False snd fst config errorhandler error_handlers].
  rewrite !rev_app_distr. reflexivity.
Qed.

(** X9 at the sample configuration in production. *)
Lemma catch_all_logging_sample :
  exists h,
    handler_for ExceptionClass
      (snd (configure_error_handlers
              (app_with_config (sample_yml (PyBool false))))) = Some h /\
    h "boom" (mkRequest (GUser bob) PyNone [] None []) =
    (Ret (Rendered "error.html" "Sorry, there was a server error."),
     mkRequest (GUser bob) PyNone [] None
       [LogError (Plain
          "Exception occured  user[5150a1b2c3d4e5f601020305]  : boom");
        LogException "boom"]).
Proof.
  destruct (catch_all_logging (app_with_config (sample_yml (PyBool false)))
              eq_refl) as (h & Hh & Hlog).
  exists h. split; [exact Hh|].
  exact (Hlog "boom" (mkRequest (GUser bob) PyNone [] None [])).
Defined.

(** X10: after an identity load that matched no user, [g.user] is [None]
    and the handler for 400 raises [AttributeError] instead of rendering;
    once the [before_request] function of [configure_security] has put the
    anonymous user in [g.user], the handler logs and renders. *)
Theorem before_request_repairs_handler (users : list User) (rq : Request)
    (error : string) :
  lookup_user users (identity_name rq) = Some [] ->
  (on_identity_loaded users ;; bad_request error) rq =
    (Raise (AttributeError "is_anonymous"), set_g_user GNone rq) /\
  (on_identity_loaded users ;; security_before_request GAnonymous ;;
   bad_request error) rq =
    (Ret (Rendered "error.html" "Sorry, this page is missing."),
     emit (LogException error)
       (emit (LogError (Plain ("400 error occured " ++ "" ++ " : "
                                                    ++ error)))
             (set_g_user GAnonymous rq))).
Proof.
  intros Hq. pose proof (on_identity_loaded_empty users rq Hq) as Hrun.
  split.
  - unfold bind at 1. rewrite Hrun.
    rewrite (annotated_400 error (set_g_user GNone rq)). reflexivity.
  - unfold bind at 1. rewrite Hrun.
    unfold bind at 1, security_before_request, modify.
    rewrite (annotated_400 error
               (set_g_user GAnonymous (set_g_user GNone rq))).
    reflexivity.
Qed.

(** X10 at an address that no sample user has. *)
Lemma before_request_repairs_handler_nobody :
  fst ((on_identity_loaded sample_users ;; bad_request "400: Bad Request")
         (request_of (PyStr "nobody"))) =
    Raise (AttributeError "is_anonymous") /\
  fst ((on_identity_loaded sample_users ;;
        security_before_request GAnonymous ;;
        bad_request "400: Bad Request") (request_of (PyStr "nobody"))) =
    Ret (Rendered "error.html" "Sorry, this page is missing.").
Proof.
  destruct (before_request_repairs_handler sample_users
              (request_of (PyStr "nobody")) "400: Bad Request" eq_refl)
    as [H1 H2].
  split.
  - now rewrite H1.
  - now rewrite H2.
Defined.

(** ** Blueprints and the encryption key *)

Lemma assoc_set_same (k : string) (x : pyval) (d : list (string * pyval)) :
  assoc k (assoc_set k x d) = Some x.
Proof.
  induction d as [|[k' v] d IH]; cbn [assoc_set assoc].
  - now rewrite String.eqb_refl.
  - destruct (k =? k')%string eqn:E; cbn [assoc]; rewrite ?String.eqb_refl;
      [reflexivity|].
    now rewrite E.
Qed.

Lemma assoc_set_other (k k' : string) (x : pyval)
    (d : list (string * pyval)) :
  k' <> k -> assoc k' (assoc_set k x d) = assoc k' d.
Proof.
  intros Hne. apply String.eqb_neq in Hne.
  induction d as [|[k0 v] d IH]; cbn [assoc_set assoc].
  - now rewrite Hne.
  - destruct (k =? k0)%string eqn:E; cbn [assoc].
    + apply String.eqb_eq in E. subst k0. now rewrite Hne.
    + destruct (k' =? k0)%string; [reflexivity | exact IH].
Qed.

Section Encryption.

Variable assemble_key : pyval -> pyval -> result pyval.

(** X12: with an [ENCRYPTION] mapping in the configuration,
    [configure_encryption] gives [assemble_key] the values of [LOCAL_KEY]
    and [REMOTE_KEY_URL] ([None] for a missing one) and stores the key
    under [ENCRYPTION.KEY]: reading it back yields the key, and every other
    entry of the mapping and of the configuration reads as before. *)
Theorem configure_encryption_stores_key (app : App)
    (d enc : list (string * pyval)) (key : pyval) :
  config app = PyDict d ->
  assoc "ENCRYPTION" d = Some (PyDict enc) ->
  assemble_key
    match assoc "LOCAL_KEY" enc with Some v => v | None => PyNone end
    match assoc "REMOTE_KEY_URL" enc with Some v => v | None => PyNone end
  = Ok key ->
  exists app' d' enc',
    configure_encryption assemble_key app = (Ret tt, app') /\
    config app' = PyDict d' /\
    assoc "ENCRYPTION" d' = Some (PyDict enc') /\
    assoc "KEY" enc' = Some key /\
    (forall k, k <> "KEY" -> assoc k enc' = assoc k enc) /\
    (forall k, k <> "ENCRYPTION" -> assoc k d' = assoc k d) /\
    settings app' = settings app /\
    error_handlers app' = error_handlers app.
Proof.
  intros Hc Henc Hkey.
  exists (set_config (PyDict (assoc_set "ENCRYPTION"
                                (PyDict (assoc_set "KEY" key enc)) d))
            (snd (enter "configure_encryption" app))).
  exists (assoc_set "ENCRYPTION" (PyDict (assoc_set "KEY" key enc)) d).
  exists (assoc_set "KEY" key enc).
  split.
  - unfold configure_encryption, bind, enter, modify, get, lift.
    cbn [config fst snd]. rewrite Hc. unfold dict_get, subscript, setitem.
    rewrite Henc. unfold ret, raise. cbv beta iota.
    destruct (assoc "LOCAL_KEY" enc); cbv beta iota;
      destruct (assoc "REMOTE_KEY_URL" enc); cbv beta iota;
      rewrite Hkey; cbv beta iota; cbn [config]; rewrite Henc;
      reflexivity.
  - split; [reflexivity|].
    split; [apply assoc_set_same|].
    split; [apply assoc_set_same|].
    split; [intros k Hk; now apply assoc_set_other|].
    split; [intros k Hk; now apply assoc_set_other|].
    split; reflexivity.
Qed.

(** X13: without an [ENCRYPTION] entry in the configuration,
    [configure_encryption] raises [AttributeError] before [assemble_key] is
    called, and the configuration is left as it was. *)
Theorem configure_encryption_missing_section (app : App)
    (d : list (string * pyval)) :
  config app = PyDict d ->
  assoc "ENCRYPTION" d = None ->
  exists app',
    configure_encryption assemble_key app =
    (Raise (AttributeError "get"), app') /\
    config app' = config app.
Proof.
  intros Hc Henc. eexists. split.
  - unfold configure_encryption, bind, enter, modify, get, lift.
    cbn [config fst snd]. rewrite Hc. unfold dict_get. rewrite Henc.
    reflexivity.
  - cbn [config]. now rewrite Hc.
Qed.

End Encryption.

(** X12 at the sample configuration. *)
Lemma configure_encryption_stores_key_sample :
  exists app',
    configure_encryption sample_assemble_key
      (app_with_config (sample_yml (PyBool false))) = (Ret tt, app') /\
    rbind (subscript (config app') "ENCRYPTION")
          (fun enc => subscript enc "KEY") = Ok (PyStr "khttp://keys/") /\
    subscript (config app') "DEBUG" = Ok (PyBool false).
Proof.
  destruct (configure_encryption_stores_key sample_assemble_key
              (app_with_config (sample_yml (PyBool false)))
              _ _ (PyStr "khttp://keys/") eq_refl eq_refl eq_refl)
    as (app' & d' & enc' & Hrun & Hc & Henc & Hkey & _ & Hother & _).
  exists app'. split; [exact Hrun|]. rewrite Hc. unfold subscript.
  rewrite Henc. cbn [rbind]. rewrite Hkey.
  split; [reflexivity|].
  rewrite (Hother "DEBUG"); [reflexivity | discriminate].
Defined.

(** X13 at a configuration that holds [DEBUG] only. *)
Lemma configure_encryption_missing_section_sample :
  exists app',
    configure_encryption sample_assemble_key
      (app_with_config (PyDict [("DEBUG", PyBool false)])) =
    (Raise (AttributeError "get"), app') /\
    config app' = PyDict [("DEBUG", PyBool false)].
Proof.
  exact (configure_encryption_missing_section sample_assemble_key
           (app_with_config (PyDict [("DEBUG", PyBool false)]))
           _ eq_refl eq_refl).
Defined.

(** ** [create_app] as a whole *)

Ltac norm_in H :=
  cbv beta iota zeta delta
    [import_name settings config debug logger_handlers db
     before_request_funcs blueprints mail identity_loaded_receivers
     user_loader error_handlers uploaded_photos calls fst snd
     set_settings set_config set_debug addHandler set_db before_request
     register_blueprint set_mail connect_identity_loaded set_user_loader
     errorhandler set_uploaded_photos Flask bind enter modify get lift ret
     raise] in H;
  cbn [List.app] in H.

Ltac returned H :=
  match type of H with
  | (Ret _, ?x) = (Ret _, ?a) =>
      assert (a = x) by congruence; subst a; clear H
  end.

Lemma assoc_app_other (k k' : string) (v : pyval)
    (d : list (string * pyval)) :
  k' <> k -> assoc k' (d ++ [(k, v)]) = assoc k' d.
Proof.
  intros Hne. apply String.eqb_neq in Hne.
  induction d as [|[k0 v0] d IH]; cbn [List.app assoc].
  - now rewrite Hne.
  - destruct (k' =? k0)%string; [reflexivity | exact IH].
Qed.

(** [setdefault] succeeds on mappings only and leaves every other key as
    it reads. *)
Lemma setdefault_inv (cfg cfg' : pyval) (k : string) (v : pyval) :
  setdefault cfg k v = Ok cfg' ->
  exists d d', cfg = PyDict d /\ cfg' = PyDict d' /\
               forall k', k' <> k -> assoc k' d' = assoc k' d.
Proof.
  unfold setdefault. destruct cfg as [| | | | | |d]; try discriminate.
  destruct (assoc k d) eqn:E; intros H; injection H as <-.
  - exists d, d. auto.
  - exists d, (d ++ [(k, v)])%list. repeat split.
    intros k' Hk. now apply assoc_app_other.
Qed.

(** The defaults of an extension touch the keys under its prefix only. *)
Lemma setdefaults_inv (prefix : string) (defaults : list (string * pyval))
    (cfg : pyval) (d' : list (string * pyval)) :
  setdefaults prefix defaults cfg = Ok (PyDict d') ->
  exists d, cfg = PyDict d /\
            forall k, (forall s, k <> prefix ++ s) -> assoc k d' = assoc k d.
Proof.
  revert cfg. induction defaults as [|[k v] rest IH]; intros cfg H.
  - cbn in H. injection H as ->. exists d'. auto.
  - cbn [setdefaults] in H. apply rbind_Ok in H as (cfg1 & H1 & H).
    apply setdefault_inv in H1 as (d & d1 & -> & -> & Hkeep).
    apply IH in H as (d1' & Heq & Hrest). injection Heq as <-.
    exists d. split; [reflexivity|].
    intros k0 Hk0. rewrite Hrest by exact Hk0. apply Hkeep. apply Hk0.
Qed.

Section CreateApp.

Variable logging_attr : string -> option pyval.
Variable open_file : pyval -> result string.
Variable security : Extension.
Variable configure_uploads : pyval -> result (list string).
Variable config_yml : pyval.
Variable from_yaml : pyval -> pyval.
Variable assemble_key : pyval -> pyval -> result pyval.

Lemma configure_logging_explicit (a : App) :
  configure_logging logging_attr open_file a =
  match logging_handler logging_attr open_file (settings a) with
  | Ok h => (Ret tt, addHandler h (snd (enter "configure_logging" a)))
  | Err e => (Raise e, snd (enter "configure_logging" a))
  end.
Proof.
  unfold configure_logging, bind, enter, modify, get, lift.
  cbn [settings fst snd].
  destruct (logging_handler logging_attr open_file (settings a));
    reflexivity.
Qed.

Lemma configure_error_handlers_explicit (a : App) :
  configure_error_handlers a =
  let a' (extra : list (ErrKey * (string -> M Request Response))) :=
    mkApp (import_name a) (settings a) (config a) (debug a)
          (logger_handlers a) (db a) (before_request_funcs a)
          (blueprints a) (mail a) (identity_loaded_receivers a)
          (user_loader a)
          ((((((error_handlers a ++ [(Status 400, bad_request)])
                 ++ [(Status 403, forbidden_request)])
                ++ [(Status 404, not_found)])
               ++ [(Status 405, no_permission)])
              ++ [(Status 500, internal_server_error)]) ++ extra)
          (uploaded_photos a) (calls a ++ ["configure_error_handlers"]) in
  match subscript (config a) "DEBUG" with
  | Ok dbg =>
      (Ret tt,
       a' (if is_False dbg
           then [(ExceptionClass, internal_exception_handler)]
           else []))
  | Err e => (Raise e, a' [])
  end.
Proof.
  destruct a as [nm st cf dg lh dbb brf bl ml ir ul eh up cl].
  unfold configure_error_handlers.
  cbv beta iota zeta delta
    [import_name settings config debug logger_handlers db
     before_request_funcs blueprints mail identity_loaded_receivers
     user_loader error_handlers uploaded_photos calls errorhandler
     bind enter modify get lift fst snd].
  destruct (subscript cf "DEBUG") as [dbg|e];
    cbv beta iota delta [ret raise];
    [destruct (is_False dbg)|];
    cbv beta iota zeta delta
      [import_name settings config debug logger_handlers db
       before_request_funcs blueprints mail identity_loaded_receivers
       user_loader error_handlers uploaded_photos calls errorhandler
       modify ret raise];
    rewrite ?app_nil_r; reflexivity.
Qed.

Lemma configure_encryption_explicit (a : App) :
  configure_encryption assemble_key a =
  let a0 := snd (enter "configure_encryption" a) in
  match config a with
  | PyDict d =>
      match assoc "ENCRYPTION" d with
      | Some (PyDict enc) =>
          match assemble_key
                  match assoc "LOCAL_KEY" enc with
                  | Some v => v
                  | None => PyNone
                  end
                  match assoc "REMOTE_KEY_URL" enc with
                  | Some v => v
                  | None => PyNone
                  end
          with
          | Ok key =>
              (Ret tt,
               set_config
                 (PyDict (assoc_set "ENCRYPTION"
                            (PyDict (assoc_set "KEY" key enc)) d)) a0)
          | Err e => (Raise e, a0)
          end
      | _ => (Raise (AttributeError "get"), a0)
      end
  | _ => (Raise (AttributeError "get"), a0)
  end.
Proof.
  unfold configure_encryption, bind, enter, modify, get, lift.
  cbn [config fst snd].
  destruct (config a) as [| | | | | |d]; try reflexivity.
  unfold dict_get at 1 3. 
  destruct (assoc "ENCRYPTION" d) as [[| | | | | |enc]|] eqn:Henc;
    try reflexivity.
  unfold ret at 1. cbv beta iota. unfold dict_get.
  destruct (assoc "LOCAL_KEY" enc); unfold ret at 1 2; cbv beta iota;
    destruct (assoc "REMOTE_KEY_URL" enc); unfold ret at 1; cbv beta iota;
    match goal with
    | |- context [assemble_key ?x ?y] => destruct (assemble_key x y)
    end; try reflexivity;
    unfold ret at 1 2; cbv beta iota; cbn [config]; unfold subscript;
    rewrite Henc; reflexivity.
Qed.

Lemma configure_security_explicit (a : App) :
  configure_security security a =
  match setdefaults "SECURITY_" (ext_defaults security) (config a) with
  | Ok cfg =>
      (Ret tt,
       mkApp (import_name a) (settings a) cfg (debug a) (logger_handlers a)
             (db a)
             ((before_request_funcs a ++ ext_before_request security)
              ++ ["before_request"])
             (blueprints a ++ ext_blueprints security) (mail a)
             ((identity_loaded_receivers a ++ ext_receivers security)
              ++ ["on_identity_loaded"])
             (Some "load_user") (error_handlers a) (uploaded_photos a)
             (calls a ++ ["configure_security"]))
  | Err e => (Raise e, snd (enter "configure_security" a))
  end.
Proof.
  destruct a as [nm st cf dg lh dbb brf bl ml ir ul eh up cl].
  unfold configure_security, Security, bind, enter, modify, get, lift.
  cbn [config fst snd].
  destruct (setdefaults "SECURITY_" (ext_defaults security) cf);
    [|reflexivity].
  unfold ret at 1. cbv beta iota.
  rewrite register_all_explicit, connect_all_explicit,
    before_request_all_explicit.
  reflexivity.
Qed.

Lemma configure_media_uploads_explicit (a : App) :
  configure_media_uploads configure_uploads a =
  match configure_uploads (config a) with
  | Ok served =>
      (Ret tt,
       mkApp (import_name a) (settings a) (config a) (debug a)
             (logger_handlers a) (db a) (before_request_funcs a)
             (blueprints a ++ served) (mail a) (identity_loaded_receivers a)
             (user_loader a) (error_handlers a) (Some "photos")
             (calls a ++ ["configure_media_uploads"]))
  | Err e => (Raise e, snd (enter "configure_media_uploads" a))
  end.
Proof.
  destruct a as [nm st cf dg lh dbb brf bl ml ir ul eh up cl].
  unfold configure_media_uploads, bind, enter, modify, get, lift.
  cbn [config fst snd].
  destruct (configure_uploads cf); [|reflexivity].
  unfold ret at 1. cbv beta iota.
  rewrite register_all_explicit. reflexivity.
Qed.

Lemma create_app_returned (app_name : option string)
    (bps : option (list string)) (app : App) :
  create_app logging_attr open_file security configure_uploads
             config_yml from_yaml assemble_key
             app_name bps = (Ret tt, app) ->
  exists h dbg d dS enc key served,
    logging_handler logging_attr open_file config_yml = Ok h /\
    from_yaml config_yml = PyDict d /\
    assoc "DEBUG" d = Some dbg /\
    assoc "ENCRYPTION" d = Some (PyDict enc) /\
    assemble_key
      match assoc "LOCAL_KEY" enc with Some v => v | None => PyNone end
      match assoc "REMOTE_KEY_URL" enc with Some v => v | None => PyNone end
    = Ok key /\
    setdefaults "SECURITY_" (ext_defaults security) (from_yaml config_yml) =
      Ok (PyDict dS) /\
    (forall k, (forall s, k <> "SECURITY_" ++ s) ->
               assoc k dS = assoc k d) /\
    configure_uploads (PyDict dS) = Ok served /\
    app =
    mkApp match app_name with None => "changebyus.app" | Some n => n end
          config_yml
          (PyDict (assoc_set "ENCRYPTION"
                             (PyDict (assoc_set "KEY" key enc)) dS))
          (eq_True dbg)
          [h] true
          (("before_request" :: ext_before_request security)
           ++ ["before_request"])
          ((match bps with None => DEFAULT_BLUEPRINTS | Some b => b end
            ++ ext_blueprints security) ++ served)
          true (ext_receivers security ++ ["on_identity_loaded"])
          (Some "load_user")
          ([(Status 400, bad_request); (Status 403, forbidden_request);
            (Status 404, not_found); (Status 405, no_permission);
            (Status 500, internal_server_error)] ++
           if is_False dbg
           then [(ExceptionClass, internal_exception_handler)]
           else [])
          (Some "photos") call_order.
Proof.
  unfold create_app, create_app_body. intros H.
  set (n := match app_name with None => "changebyus.app" | Some n => n end)
    in *.
  set (bl := match bps with None => DEFAULT_BLUEPRINTS | Some b => b end)
    in *.
  apply bind_Ret in H as (u1 & a1 & H1 & H).
  apply bind_Ret in H as (u2 & a2 & H2 & H).
  apply bind_Ret in H as (u3 & a3 & H3 & H).
  apply bind_Ret in H as (u4 & a4 & H4 & H).
  apply bind_Ret in H as (u5 & a5 & H5 & H).
  apply bind_Ret in H as (u6 & a6 & H6 & H).
  apply bind_Ret in H as (u7 & a7 & H7 & H).
  apply bind_Ret in H as (u8 & a8 & H8 & H).
  apply bind_Ret in H as (u9 & a9 & H9 & H).
  apply bind_Ret in H as (u10 & a10 & H10 & H).
  unfold configure_app in H1. norm_in H1. returned H1.
  rewrite configure_logging_explicit in H2. norm_in H2.
  destruct (logging_handler logging_attr open_file config_yml)
    as [h|e] eqn:Hh; [|discriminate H2].
  returned H2.
  unfold configure_database in H3. norm_in H3. returned H3.
  unfold configure_hook in H4. norm_in H4. returned H4.
  unfold configure_blueprints in H5. unfold bind, enter, modify in H5.
  rewrite register_all_explicit in H5. norm_in H5. returned H5.
  unfold configure_mail in H6. norm_in H6. returned H6.
  rewrite configure_security_explicit in H7. norm_in H7.
  destruct (setdefaults "SECURITY_" (ext_defaults security)
                        (from_yaml config_yml)) as [cfgS|e] eqn:Hsec;
    [|discriminate H7].
  returned H7.
  rewrite configure_error_handlers_explicit in H8. norm_in H8.
  unfold subscript in H8.
  destruct cfgS as [| | | | | |dS]; try discriminate H8.
  destruct (assoc "DEBUG" dS) as [dbg|] eqn:Hdbg; [|discriminate H8].
  returned H8.
  rewrite configure_media_uploads_explicit in H9. norm_in H9.
  destruct (configure_uploads (PyDict dS)) as [served|e] eqn:Hup;
    [|discriminate H9].
  returned H9.
  rewrite configure_encryption_explicit in H10. norm_in H10.
  destruct (assoc "ENCRYPTION" dS) as [[| | | | | |enc]|] eqn:Henc;
    try discriminate H10.
  match type of H10 with
  | context [assemble_key ?x ?y] =>
      destruct (assemble_key x y) as [key|e] eqn:Hkey; [|discriminate H10]
  end.
  returned H10.
  unfold bind, get, lift in H. cbn [config subscript] in H.
  rewrite assoc_set_other in H by discriminate.
  rewrite Hdbg in H. unfold ret at 1 in H.
  destruct (setdefaults_inv _ _ _ _ Hsec) as (d & Hcfg & Hkeep).
  rewrite Hkeep in Hdbg by (intros s0 Hs0; discriminate Hs0).
  rewrite Hkeep in Henc by (intros s0 Hs0; discriminate Hs0).
  exists h, dbg, d, dS, enc, key, served.
  repeat (split; [reflexivity || assumption|]).
  destruct (eq_True dbg); norm_in H; injection H as <-; reflexivity.
Qed.

(** X14: when [create_app] returns, the application carries the name it
    was given (the module's name when omitted); its blueprints are those it
    was given (the twelve default ones when omitted), in the order given,
    then those of the security extension, then those the uploads extension
    registered; the one log handler attached is the one built from the
    configuration file; the database, the mail client and the upload set
    are bound; [app.settings] is the file's document; the module's receiver
    of [identity_loaded] is connected after those of the security
    extension; and the five status handlers are registered. *)
Theorem create_app_wiring (app_name : option string)
    (bps : option (list string)) (app : App) :
  create_app logging_attr open_file security configure_uploads
             config_yml from_yaml assemble_key
             app_name bps = (Ret tt, app) ->
  import_name app =
    match app_name with None => "changebyus.app" | Some n => n end /\
  (exists cfg served,
     setdefaults "SECURITY_" (ext_defaults security) (from_yaml config_yml)
       = Ok cfg /\
     configure_uploads cfg = Ok served /\
     blueprints app =
       ((match bps with None => DEFAULT_BLUEPRINTS | Some b => b end
         ++ ext_blueprints security) ++ served)%list) /\
  (exists h, logging_handler logging_attr open_file config_yml = Ok h /\
             logger_handlers app = [h]) /\
  db app = true /\ mail app = true /\
  uploaded_photos app = Some "photos" /\
  settings app = config_yml /\
  identity_loaded_receivers app =
    (ext_receivers security ++ ["on_identity_loaded"])%list /\
  user_loader app = Some "load_user" /\
  handler_for (Status 400) app = Some bad_request /\
  handler_for (Status 403) app = Some forbidden_request /\
  handler_for (Status 404) app = Some not_found /\
  handler_for (Status 405) app = Some no_permission /\
  handler_for (Status 500) app = Some internal_server_error.
Proof.
  intros H.
  apply create_app_returned in H
    as (h & dbg & d & dS & enc & key & served & Hh & _ & _ & _ & _ & Hsec
        & _ & Hup & ->).
  cbn [import_name blueprints logger_handlers db mail uploaded_photos
       settings identity_loaded_receivers user_loader].
  split; [reflexivity|].
  split; [exists (PyDict dS), served; repeat split; assumption|].
  split; [exists h; split; [exact Hh | reflexivity]|].
  destruct (is_False dbg); repeat split; reflexivity.
Qed.

(** X15: when [create_app] returns, the [DEBUG] configuration could be
    read, and the application has a handler for [Exception] exactly when
    that value is the boolean [False]; the handler is then the catch-all of
    [configure_error_handlers], and otherwise there is none. *)
Theorem create_app_catch_all (app_name : option string)
    (bps : option (list string)) (app : App) :
  create_app logging_attr open_file security configure_uploads
             config_yml from_yaml assemble_key
             app_name bps = (Ret tt, app) ->
  exists dbg,
    subscript (from_yaml config_yml) "DEBUG" = Ok dbg /\
    registered ExceptionClass app = is_False dbg /\
    handler_for ExceptionClass app =
      if is_False dbg then Some internal_exception_handler else None.
Proof.
  intros H.
  apply create_app_returned in H
    as (h & dbg & d & dS & enc & key & served & _ & Hcfg & Hdbg & _ & _ & _
        & _ & _ & ->).
  exists dbg. rewrite Hcfg. unfold subscript. rewrite Hdbg.
  split; [reflexivity|].
  destruct (is_False dbg); split; reflexivity.
Qed.

(** X16: when [create_app] returns, the configuration has an [ENCRYPTION]
    mapping, [app.config] holds under [ENCRYPTION.KEY] the key that
    [assemble_key] made of its [LOCAL_KEY] and [REMOTE_KEY_URL], the
    entries of [app.config] other than [ENCRYPTION], [DEBUG] and the keys
    of the security extension ([SECURITY_...]) read as loaded from the
    file, and [app.settings] is the file's document, without the key. *)
Theorem create_app_encryption_key (app_name : option string)
    (bps : option (list string)) (app : App) :
  create_app logging_attr open_file security configure_uploads
             config_yml from_yaml assemble_key
             app_name bps = (Ret tt, app) ->
  exists d enc key,
    from_yaml config_yml = PyDict d /\
    assoc "ENCRYPTION" d = Some (PyDict enc) /\
    assemble_key
      match assoc "LOCAL_KEY" enc with Some v => v | None => PyNone end
      match assoc "REMOTE_KEY_URL" enc with Some v => v | None => PyNone end
    = Ok key /\
    rbind (subscript (config app) "ENCRYPTION")
          (fun e => subscript e "KEY") = Ok key /\
    (forall k, k <> "ENCRYPTION" -> k <> "DEBUG" ->
               (forall s, k <> "SECURITY_" ++ s) ->
               subscript (config app) k = subscript (from_yaml config_yml) k)
    /\ settings app = config_yml.
Proof.
  intros H.
  apply create_app_returned in H
    as (h & dbg & d & dS & enc & key & served & _ & Hcfg & _ & Henc & Hkey
        & _ & Hkeep & _ & ->).
  exists d, enc, key. cbn [config settings]. rewrite Hcfg.
  repeat (split; [reflexivity || assumption|]).
  split; [|split; [|reflexivity]].
  - unfold subscript. rewrite assoc_set_same. cbn [rbind].
    now rewrite assoc_set_same.
  - intros k Hk _ Hsec. unfold subscript.
    rewrite assoc_set_other by exact Hk. now rewrite Hkeep.
Qed.

(** X17: when the handler cannot be built from the configuration file,
    [create_app] raises the error of [configure_logging] and stops there:
    the database is not bound, and no blueprint, hook or error handler has
    been registered. *)
Theorem create_app_logging_failure (app_name : option string)
    (bps : option (list string)) (e : exn) :
  logging_handler logging_attr open_file config_yml = Err e ->
  exists app,
    create_app logging_attr open_file security configure_uploads
             config_yml from_yaml assemble_key
               app_name bps = (Raise e, app) /\
    calls app = ["configure_app"; "configure_logging"] /\
    logger_handlers app = [] /\ db app = false /\ blueprints app = [] /\
    before_request_funcs app = [] /\ error_handlers app = [].
Proof.
  intros He. unfold create_app, create_app_body.
  eexists. split.
  - unfold bind at 1. unfold configure_app. unfold bind at 1 2.
    unfold enter at 1, modify at 1 2 3. unfold bind at 1.
    rewrite configure_logging_explicit.
    cbn [settings set_settings set_config]. rewrite He. reflexivity.
  - cbv. repeat split.
Qed.

(** X18: without an [ENCRYPTION] mapping in the configuration,
    [create_app] does not return. *)
Theorem create_app_needs_encryption (app_name : option string)
    (bps : option (list string)) :
  (forall d enc, from_yaml config_yml = PyDict d ->
                 assoc "ENCRYPTION" d <> Some (PyDict enc)) ->
  fst (create_app logging_attr open_file security configure_uploads
             config_yml from_yaml assemble_key
                  app_name bps) <> Ret tt.
Proof.
  intros Hno Hret.
  destruct (create_app logging_attr open_file security configure_uploads
                       config_yml from_yaml assemble_key app_name bps)
    as [o app] eqn:E.
  cbn [fst] in Hret. subst o.
  apply create_app_returned in E
    as (h & dbg & d & dS & enc & key & served & _ & Hcfg & _ & Henc & _).
  exact (Hno d enc Hcfg Henc).
Qed.

Lemma seq_prefix (c k : M App unit) (n : string) (pre rest : list string)
    (a : App) :
  (forall a0, calls (snd (c a0)) = (calls a0 ++ [n])%list) ->
  calls a = pre ->
  call_order = (pre ++ n :: rest)%list ->
  (forall a1, calls a1 = (pre ++ [n])%list ->
              exists r, call_order = (calls (snd (k a1)) ++ r)%list) ->
  exists r, call_order = (calls (snd (bind c (fun _ => k) a)) ++ r)%list.
Proof.
  intros Hc Hpre Horder Hk. unfold bind. specialize (Hc a).
  destruct (c a) as [[u|e] a1]; cbn [snd] in *.
  - apply Hk. now rewrite Hc, Hpre.
  - exists rest. rewrite Hc, Hpre, <- app_assoc. exact Horder.
Qed.

(** X19: whether [create_app] returns or raises, the configurators that
    were entered are an initial part of the order of the source: none is
    skipped and none runs after a later one or after a failure. *)
Theorem create_app_calls_prefix (app_name : option string)
    (bps : option (list string)) :
  exists rest,
    call_order =
    (calls (snd (create_app logging_attr open_file security
                            configure_uploads config_yml from_yaml
                            assemble_key app_name bps)) ++ rest)%list.
Proof.
  unfold create_app, create_app_body.
  eapply seq_prefix;
    [apply configure_app_calls | reflexivity | reflexivity | intros a1 H1].
  eapply seq_prefix;
    [apply configure_logging_calls | exact H1 | reflexivity | intros a2 H2].
  eapply seq_prefix;
    [apply configure_database_calls | exact H2 | reflexivity
    | intros a3 H3].
  eapply seq_prefix;
    [apply configure_hook_calls | exact H3 | reflexivity | intros a4 H4].
  eapply seq_prefix;
    [apply configure_blueprints_calls | exact H4 | reflexivity
    | intros a5 H5].
  eapply seq_prefix;
    [apply configure_mail_calls | exact H5 | reflexivity | intros a6 H6].
  eapply seq_prefix;
    [apply configure_security_calls | exact H6 | reflexivity
    | intros a7 H7].
  eapply seq_prefix;
    [apply configure_error_handlers_calls | exact H7 | reflexivity
    | intros a8 H8].
  eapply seq_prefix;
    [apply configure_media_uploads_calls | exact H8 | reflexivity
    | intros a9 H9].
  eapply seq_prefix;
    [apply configure_encryption_calls | exact H9 | reflexivity
    | intros a10 H10].
  exists []. rewrite app_nil_r.
  unfold bind, get, lift, modify, ret, raise.
  destruct (subscript (config a10) "DEBUG") as [dbg|e];
    [destruct (eq_True dbg)|]; cbn [snd calls set_debug]; rewrite H10;
    reflexivity.
Qed.

End CreateApp.

(** [create_app] returns at the sample configuration. *)
Lemma sample_create_app_returns :
  create_app level_names open_in_logs sample_security
             sample_configure_uploads (sample_yml (PyBool false))
             sample_from_yaml sample_assemble_key None None =
  (Ret tt,
   snd (create_app level_names open_in_logs sample_security
                   sample_configure_uploads (sample_yml (PyBool false))
                   sample_from_yaml sample_assemble_key None None)).
Proof. vm_compute. reflexivity. Defined.

(** X14 at the sample configuration. *)
Lemma create_app_wiring_sample :
  let app := snd (sample_create_app (PyBool false)) in
  blueprints app = (DEFAULT_BLUEPRINTS ++ ["security"; "_uploads"])%list /\
  identity_loaded_receivers app =
    ["_on_identity_loaded"; "on_identity_loaded"] /\
  db app = true /\ mail app = true /\
  handler_for (Status 404) app = Some not_found.
Proof.
  unfold sample_create_app.
  destruct (create_app_wiring level_names open_in_logs sample_security
              sample_configure_uploads (sample_yml (PyBool false))
              sample_from_yaml sample_assemble_key None None _
              sample_create_app_returns)
    as (_ & (cfg & served & Hcfg & Hserved & Hb) & _ & Hdb & Hmail & _ & _
        & Hr & _ & _ & _ & H404 & _).
  injection Hcfg as <-. injection Hserved as <-.
  cbv zeta. repeat split; assumption.
Defined.

(** X15 at the sample configuration in production. *)
Lemma create_app_catch_all_sample :
  let app := snd (sample_create_app (PyBool false)) in
  registered ExceptionClass app = true /\
  handler_for ExceptionClass app = Some internal_exception_handler.
Proof.
  unfold sample_create_app.
  destruct (create_app_catch_all level_names open_in_logs sample_security
              sample_configure_uploads (sample_yml (PyBool false))
              sample_from_yaml sample_assemble_key None None _
              sample_create_app_returns)
    as (dbg & Hdbg & Hr & Hh).
  injection Hdbg as <-. cbv zeta. auto.
Defined.

(** X16 at the sample configuration. *)
Lemma create_app_encryption_key_sample :
  let app := snd (sample_create_app (PyBool false)) in
  rbind (subscript (config app) "ENCRYPTION")
        (fun e => subscript e "KEY") = Ok (PyStr "khttp://keys/") /\
  subscript (config app) "UPLOADED_PHOTOS_DEST" =
    Ok (PyStr "/srv/cbu/photos") /\
  settings app = sample_yml (PyBool false).
Proof.
  unfold sample_create_app.
  destruct (create_app_encryption_key level_names open_in_logs
              sample_security sample_configure_uploads
              (sample_yml (PyBool false)) sample_from_yaml
              sample_assemble_key None None _ sample_create_app_returns)
    as (d & enc & key & Hd & Henc & Hkey & Hread & Hkeep & Hs).
  injection Hd as <-. injection Henc as <-. injection Hkey as <-.
  cbv zeta. split; [exact Hread|]. split; [|exact Hs].
  rewrite Hkeep; [reflexivity | discriminate | discriminate |].
  intros s0 Hs0. discriminate Hs0.
Defined.

(** X17 at a configuration file whose [LOGGING] entry is empty. *)
Lemma create_app_logging_failure_sample :
  exists app,
    create_app level_names open_in_logs sample_security
      sample_configure_uploads
      (PyDict [("DEBUG", PyBool false); ("LOGGING", PyNone)])
      sample_from_yaml sample_assemble_key None None = (Raise TypeError, app)
    /\ calls app = ["configure_app"; "configure_logging"]
    /\ logger_handlers app = [] /\ db app = false /\ blueprints app = []
    /\ before_request_funcs app = [] /\ error_handlers app = [].
Proof.
  exact (create_app_logging_failure level_names open_in_logs sample_security
           sample_configure_uploads
           (PyDict [("DEBUG", PyBool false); ("LOGGING", PyNone)])
           sample_from_yaml sample_assemble_key None None TypeError eq_refl).
Defined.

(** X18 at a configuration file without the [ENCRYPTION] entry. *)
Lemma create_app_needs_encryption_sample :
  fst (create_app level_names open_in_logs sample_security
         sample_configure_uploads
         (PyDict [("DEBUG", PyBool false);
                  ("LOGGING", logging_section (PyInt 10) (PyStr "INFO")
                                              (PyStr "cbu.log") (PyInt 5));
                  ("UPLOADED_PHOTOS_DEST", PyStr "/srv/cbu/photos")])
         sample_from_yaml sample_assemble_key None None) <> Ret tt.
Proof.
  apply create_app_needs_encryption.
  intros d enc Hd. injection Hd as <-. discriminate.
Defined.
